(** * PerformanceMonitor: Core Web Vitals aggregation and report buffer

    A shallow embedding of the [PerformanceMonitor] class (observers for LCP,
    INP and CLS, the resource classifier, the rating functions and the report
    buffer with its transport), followed by the properties proved about it.

    Conventions of the embedding.
    - A JavaScript number is an exact rational ([Q]): comparisons, sums and
      [Math.floor] are modelled exactly; rounding of binary floating point and
      NaN are outside the model.  Sizes of the Resource Timing API
      ([unsigned long long]) and [interactionId] are naturals ([N]).
    - [this] is the record [Monitor], passed and returned explicitly.  The
      record also carries what the class does to the outside world: the
      requests handed to [navigator.sendBeacon] / [fetch] and the console.
    - What a method reads from the environment ([Date.now()],
      [window.location.href], [navigator.userAgent], whether
      [navigator.sendBeacon] exists, whether the [fetch] promise rejects) is
      the record [Ctx], one per call.
    - A statement that raises [TypeError] is the [Throw] case of [result]. *)

From Stdlib Require Import QArith Qround Qabs ZArith NArith String Ascii Bool.
From Stdlib Require Import PrimFloat Lia Lqa Permutation Sorted List.
Import ListNotations.

Open Scope string_scope.
Open Scope list_scope.
Open Scope Q_scope.

(** ** Values *)

Inductive result (A : Type) : Type :=
| Ok (a : A)
| Throw (exn : string).
Arguments Ok {A} a.
Arguments Throw {A} exn.

Definition bind {A B : Type} (r : result A) (k : A -> result B) : result B :=
  match r with
  | Ok a => k a
  | Throw exn => Throw exn
  end.

(** An opaque reference to a browser object (a DOM element, an attribution
    list): the monitor stores and forwards it and never looks inside. *)
Definition Handle := N.

(** A number read from an array by index: the element, or [undefined]. *)
Inductive JsNumber : Type :=
| Num (q : Q)
| Undefined.

Definition Qltb (x y : Q) : bool := negb (Qle_bool y x).

(** Truthiness of a number: every number but zero. *)
Definition truthy (q : Q) : bool := negb (Qeq_bool q 0).

(** ** Browser entries *)

Module LcpEntry.
Record t := { startTime : Q; element : Handle }.
End LcpEntry.

Module EventEntry.
Record t := { interactionId : N; duration : Q; startTime : Q }.
End EventEntry.

Module LayoutShift.
Record t := { startTime : Q; value : Q; hadRecentInput : bool; sources : Handle }.
End LayoutShift.

Module ResourceEntry.
Record t := {
    name : string;
    startTime : Q;
    responseEnd : Q;
    duration : Q;
    transferSize : N;
    encodedBodySize : N;
    decodedBodySize : N
  }.
End ResourceEntry.

(** ** Samples and reports *)

Inductive Detail : Type :=
| Element (h : Handle)
| Interactions (n : nat)
| Sources (h : Handle).

Module Vital.
Record t := { value : JsNumber; rating : string; timestamp : Z; detail : Detail }.
End Vital.

(** The result of [toFixed] on a quotient: a finite decimal, or the text
    ["-Infinity"] a division of a negative number by zero gives. *)
Inductive Fixed : Type :=
| Finite (q : Q)
| NegInfinity.

Module Analysis.
Record t := {
    name : string;
    type : string;
    size : N;
    duration : Q;
    cached : bool;
    compression : Fixed;
    efficiency : Fixed;
    issues : list string
  }.
End Analysis.

Inductive MetricData : Type :=
| VitalData (v : Vital.t)
| ResourceIssue (a : Analysis.t)
| OtherData (h : Handle).

Module Sample.
Record t := { name : string; data : MetricData; timestamp : Z }.
End Sample.

(** [metrics.coreWebVitals], with the fields of the observers modelled here;
    a field that is not set yet is [None]. *)
Record CoreWebVitals := {
  lcp : option Vital.t;
  inp : option Vital.t;
  cls : option Vital.t
}.

(** [metrics]: the vitals, and of the three collections the summary counts,
    their sizes. *)
Record Metrics := {
  coreWebVitals : CoreWebVitals;
  resourceTimings : nat;
  userTimings : nat;
  customMetrics : nat
}.

Record Summary := {
  summaryCoreWebVitals : CoreWebVitals;
  resourceCount : nat;
  userTimingCount : nat;
  customMetricCount : nat
}.

Module Report.
Record t := {
    url : string;
    userAgent : string;
    timestamp : Z;
    metrics : list Sample.t;
    summary : Summary
  }.
End Report.

Inductive Request : Type :=
| Beacon (endpoint : string) (body : Report.t)
| Fetch (endpoint : string) (body : Report.t).

Definition body (r : Request) : Report.t :=
  match r with
  | Beacon _ b => b
  | Fetch _ b => b
  end.

Definition isBeacon (r : Request) : bool :=
  match r with
  | Beacon _ _ => true
  | Fetch _ _ => false
  end.

Inductive ConsoleMsg : Type :=
| ConsoleLog (label : string)
| ConsoleError (label : string).

(** ** The monitor *)

Record Options := {
  reportingEndpoint : string;
  bufferSize : Z;
  reportInterval : Z;
  debugMode : bool
}.

Record Monitor := {
  options : Options;
  metrics : Metrics;
  buffer : list Sample.t;
  (** [this.observer]: [None] is [null], [Some c] an observer that is
      connected when [c] holds. *)
  observer : option bool;
  (** [this.reportTimer]: [None] before [setupReporting], [Some a] an
      interval that is still running when [a] holds. *)
  reportTimer : option bool;
  network : list Request;
  console : list ConsoleMsg
}.

Record Ctx := {
  now : Z;
  href : string;
  navigatorUserAgent : string;
  sendBeacon : bool;
  fetchRejects : bool
}.

Definition set_buffer (b : list Sample.t) (m : Monitor) : Monitor :=
  {| options := options m; metrics := metrics m; buffer := b;
     observer := observer m; reportTimer := reportTimer m;
     network := network m; console := console m |}.

Definition set_observer (o : option bool) (m : Monitor) : Monitor :=
  {| options := options m; metrics := metrics m; buffer := buffer m;
     observer := o; reportTimer := reportTimer m;
     network := network m; console := console m |}.

Definition set_reportTimer (t : option bool) (m : Monitor) : Monitor :=
  {| options := options m; metrics := metrics m; buffer := buffer m;
     observer := observer m; reportTimer := t;
     network := network m; console := console m |}.

Definition send (r : Request) (m : Monitor) : Monitor :=
  {| options := options m; metrics := metrics m; buffer := buffer m;
     observer := observer m; reportTimer := reportTimer m;
     network := network m ++ [r]; console := console m |}.

Definition print (c : ConsoleMsg) (m : Monitor) : Monitor :=
  {| options := options m; metrics := metrics m; buffer := buffer m;
     observer := observer m; reportTimer := reportTimer m;
     network := network m; console := console m ++ [c] |}.

Definition set_coreWebVitals (c : CoreWebVitals) (m : Monitor) : Monitor :=
  {| options := options m;
     metrics := {| coreWebVitals := c;
                   resourceTimings := resourceTimings (metrics m);
                   userTimings := userTimings (metrics m);
                   customMetrics := customMetrics (metrics m) |};
     buffer := buffer m;
     observer := observer m; reportTimer := reportTimer m;
     network := network m; console := console m |}.

Definition vitals (m : Monitor) : CoreWebVitals := coreWebVitals (metrics m).

Definition set_lcp (v : Vital.t) (m : Monitor) : Monitor :=
  set_coreWebVitals {| lcp := Some v; inp := inp (vitals m); cls := cls (vitals m) |} m.

Definition set_inp (v : Vital.t) (m : Monitor) : Monitor :=
  set_coreWebVitals {| lcp := lcp (vitals m); inp := Some v; cls := cls (vitals m) |} m.

Definition set_cls (v : Vital.t) (m : Monitor) : Monitor :=
  set_coreWebVitals {| lcp := lcp (vitals m); inp := inp (vitals m); cls := Some v |} m.

(** ** Rating functions *)

Definition rateLCP (value : Q) : string :=
  if Qle_bool value 2500 then "good"
  else if Qle_bool value 4000 then "needs-improvement"
  else "poor".

Definition rateFID (value : Q) : string :=
  if Qle_bool value 100 then "good"
  else if Qle_bool value 300 then "needs-improvement"
  else "poor".

Definition rateINP (value : Q) : string :=
  if Qle_bool value 200 then "good"
  else if Qle_bool value 500 then "needs-improvement"
  else "poor".

Definition rateCLS (value : Q) : string :=
  if Qle_bool value 0.1 then "good"
  else if Qle_bool value 0.25 then "needs-improvement"
  else "poor".

Definition rateFCP (value : Q) : string :=
  if Qle_bool value 1800 then "good"
  else if Qle_bool value 3000 then "needs-improvement"
  else "poor".

Definition rateTTI (value : Q) : string :=
  if Qle_bool value 3800 then "good"
  else if Qle_bool value 7300 then "needs-improvement"
  else "poor".

(** ** Report buffer and transport *)

(** [log(label, data)]: prints only in debug mode. *)
Definition log (label : string) (m : Monitor) : Monitor :=
  if debugMode (options m)
  then print (ConsoleLog ("Performance Monitor - " ++ label ++ ":")%string) m
  else m.

Definition getSummary (m : Monitor) : Summary :=
  {| summaryCoreWebVitals := coreWebVitals (metrics m);
     resourceCount := resourceTimings (metrics m);
     userTimingCount := userTimings (metrics m);
     customMetricCount := customMetrics (metrics m) |}.

(** [sendReport(immediate)].  The [catch] handler of the [fetch] promise runs
    after the method has returned; it only prints, so its message is put
    after the method's own log line. *)
Definition sendReport (c : Ctx) (immediate : bool) (m : Monitor) : Monitor :=
  match buffer m with
  | [] => m
  | _ :: _ =>
      let report :=
        {| Report.url := href c;
           Report.userAgent := navigatorUserAgent c;
           Report.timestamp := now c;
           Report.metrics := buffer m;
           Report.summary := getSummary m |} in
      let m1 := set_buffer [] m in
      if immediate && sendBeacon c then
        log "Performance report sent"
            (send (Beacon (reportingEndpoint (options m1)) report) m1)
      else
        let m2 := log "Performance report sent"
                      (send (Fetch (reportingEndpoint (options m1)) report) m1) in
        if fetchRejects c && debugMode (options m2)
        then print (ConsoleError "Failed to send performance report:") m2
        else m2
  end.

Definition reportMetric (c : Ctx) (name : string) (data : MetricData) (m : Monitor) : Monitor :=
  let m1 := set_buffer (buffer m ++ [ {| Sample.name := name;
                                         Sample.data := data;
                                         Sample.timestamp := now c |} ]) m in
  if (Z.of_nat (length (buffer m1)) >=? bufferSize (options m1))%Z
  then sendReport c false m1
  else m1.

Definition destroy (c : Ctx) (m : Monitor) : Monitor :=
  let m1 := match observer m with
            | Some _ => set_observer (Some false) m
            | None => m
            end in
  let m2 := match reportTimer m1 with
            | Some _ => set_reportTimer (Some false) m1
            | None => m1
            end in
  sendReport c true m2.

(** A run of [reportMetric] calls, each in its own context. *)
Fixpoint reportAll (calls : list (Ctx * string * MetricData)) (m : Monitor) : Monitor :=
  match calls with
  | [] => m
  | (c, name, data) :: rest => reportAll rest (reportMetric c name data m)
  end.

(** Every sample the monitor has accepted so far, in order: those already
    handed to the transport, then those still buffered. *)
Definition recorded (m : Monitor) : list Sample.t :=
  concat (map (fun r => Report.metrics (body r)) (network m)) ++ buffer m.

(** ** Largest Contentful Paint *)

(** The callback [measureLCP] registers.  [entries[entries.length - 1]] is
    [undefined] for an empty list, and reading its [startTime] raises. *)
Definition measureLCP_callback (c : Ctx) (entries : list LcpEntry.t) (m : Monitor)
  : result Monitor :=
  match nth_error entries (length entries - 1) with
  | None => Throw "TypeError"
  | Some lastEntry =>
      let v := {| Vital.value := Num (LcpEntry.startTime lastEntry);
                  Vital.rating := rateLCP (LcpEntry.startTime lastEntry);
                  Vital.timestamp := now c;
                  Vital.detail := Element (LcpEntry.element lastEntry) |} in
      Ok (reportMetric c "lcp" (VitalData v) (log "LCP" (set_lcp v m)))
  end.

(** The observer's notifications in the order the browser delivers them. *)
Fixpoint deliverLCP (notifications : list (Ctx * list LcpEntry.t)) (m : Monitor)
  : result Monitor :=
  match notifications with
  | [] => Ok m
  | (c, entries) :: rest => bind (measureLCP_callback c entries m) (deliverLCP rest)
  end.

(** ** Interaction to Next Paint *)

Module Interaction.
Record t := { id : N; latency : Q; timestamp : Q }.
End Interaction.

(** The comparator [(a, b) => a - b] and a stable sort by it. *)
Definition compareFn (a b : Q) : Q := a - b.

Fixpoint insert (x : Q) (l : list Q) : list Q :=
  match l with
  | [] => [x]
  | y :: l' => if Qltb (compareFn y x) 0 then y :: insert x l' else x :: l
  end.

Fixpoint sort (l : list Q) : list Q :=
  match l with
  | [] => []
  | x :: l' => insert x (sort l')
  end.

(** [l.slice(-k)]. *)
Definition slice_last {A : Type} (k : nat) (l : list A) : list A :=
  skipn (length l - k) l.

(** [Math.floor(n * 0.98)]. *)
Definition percentileIndex (n : nat) : nat :=
  Z.to_nat (Qfloor (inject_Z (Z.of_nat n) * 0.98)).

Definition sortedLatencies (interactions : list Interaction.t) : list Q :=
  sort (map Interaction.latency interactions).

Definition inpOf (interactions : list Interaction.t) : option Q :=
  nth_error (sortedLatencies interactions)
            (percentileIndex (length (sortedLatencies interactions))).

(** The sample built from [inp]; [rateINP(undefined)] is ["poor"], both of
    its comparisons being false. *)
Definition inpVital (c : Ctx) (interactions : list Interaction.t) : Vital.t :=
  match inpOf interactions with
  | Some inp =>
      {| Vital.value := Num inp; Vital.rating := rateINP inp;
         Vital.timestamp := now c;
         Vital.detail := Interactions (length interactions) |}
  | None =>
      {| Vital.value := Undefined; Vital.rating := "poor";
         Vital.timestamp := now c;
         Vital.detail := Interactions (length interactions) |}
  end.

(** The body of the [forEach] in [measureINP]; [interactions] is the variable
    the callback closes over. *)
Definition measureINP_entry (c : Ctx) (st : list Interaction.t * Monitor)
           (entry : EventEntry.t) : list Interaction.t * Monitor :=
  let (interactions, m) := st in
  if negb (EventEntry.interactionId entry =? 0)%N then
    let pushed := interactions ++
                  [ {| Interaction.id := EventEntry.interactionId entry;
                       Interaction.latency := EventEntry.duration entry;
                       Interaction.timestamp := EventEntry.startTime entry |} ] in
    let interactions' := if (10 <? length pushed)%nat then slice_last 10 pushed
                         else pushed in
    let v := inpVital c interactions' in
    (interactions', reportMetric c "inp" (VitalData v) (log "INP" (set_inp v m)))
  else st.

Definition measureINP_callback (c : Ctx) (entries : list EventEntry.t)
           (st : list Interaction.t * Monitor) : list Interaction.t * Monitor :=
  fold_left (measureINP_entry c) entries st.


(** ** Cumulative Layout Shift *)

(** The three variables the callback of [measureCLS] closes over. *)
Record ClsState := {
  clsValue : Q;
  sessionValue : Q;
  sessionEntries : list LayoutShift.t
}.

Definition clsInit : ClsState :=
  {| clsValue := 0; sessionValue := 0; sessionEntries := [] |}.

(** The condition of the [if]: [sessionValue && ... < 1000 && ... < 5000],
    evaluated left to right; [lastSessionEntry.startTime] raises when the
    session has no entry. *)
Definition sameSession (s : ClsState) (entry : LayoutShift.t) : result bool :=
  let firstSessionEntry := nth_error (sessionEntries s) 0 in
  let lastSessionEntry := nth_error (sessionEntries s) (length (sessionEntries s) - 1) in
  if truthy (sessionValue s) then
    match lastSessionEntry, firstSessionEntry with
    | Some l, Some f =>
        Ok (Qltb (LayoutShift.startTime entry - LayoutShift.startTime l) 1000
            && Qltb (LayoutShift.startTime entry - LayoutShift.startTime f) 5000)
    | _, _ => Throw "TypeError"
    end
  else Ok false.

Definition measureCLS_entry (c : Ctx) (st : ClsState * Monitor) (entry : LayoutShift.t)
  : result (ClsState * Monitor) :=
  let (s, m) := st in
  if negb (LayoutShift.hadRecentInput entry) then
    bind (sameSession s entry) (fun same =>
      let s1 :=
        if same then
          {| clsValue := clsValue s;
             sessionValue := sessionValue s + LayoutShift.value entry;
             sessionEntries := sessionEntries s ++ [entry] |}
        else
          {| clsValue := clsValue s;
             sessionValue := LayoutShift.value entry;
             sessionEntries := [entry] |} in
      if Qltb (clsValue s1) (sessionValue s1) then
        let s2 := {| clsValue := sessionValue s1;
                     sessionValue := sessionValue s1;
                     sessionEntries := sessionEntries s1 |} in
        let v := {| Vital.value := Num (clsValue s2);
                    Vital.rating := rateCLS (clsValue s2);
                    Vital.timestamp := now c;
                    Vital.detail := Sources (LayoutShift.sources entry) |} in
        Ok (s2, reportMetric c "cls" (VitalData v) (log "CLS" (set_cls v m)))
      else Ok (s1, m))
  else Ok st.

Fixpoint measureCLS_callback (c : Ctx) (entries : list LayoutShift.t)
         (st : ClsState * Monitor) : result (ClsState * Monitor) :=
  match entries with
  | [] => Ok st
  | entry :: rest => bind (measureCLS_entry c st entry) (measureCLS_callback c rest)
  end.

Fixpoint deliverCLS (notifications : list (Ctx * list LayoutShift.t))
         (st : ClsState * Monitor) : result (ClsState * Monitor) :=
  match notifications with
  | [] => Ok st
  | (c, entries) :: rest => bind (measureCLS_callback c entries st) (deliverCLS rest)
  end.

(** ** Resource classifier *)

(** [s] ends with [suffix]: what [/suffix$/] tests for a literal suffix. *)
Definition endsWith (suffix s : string) : bool :=
  (String.length suffix <=? String.length s)%nat
  && String.eqb (substring (String.length s - String.length suffix)
                           (String.length suffix) s) suffix.

Definition endsWithAny (suffixes : list string) (s : string) : bool :=
  existsb (fun suffix => endsWith suffix s) suffixes.

Definition includes (s sub : string) : bool :=
  match index 0 sub s with
  | Some _ => true
  | None => false
  end.

Definition getResourceType (url : string) : string :=
  if endsWithAny [".css"] url then "stylesheet"
  else if endsWithAny [".js"] url then "script"
  else if endsWithAny [".png"; ".jpg"; ".jpeg"; ".gif"; ".webp"; ".avif"; ".svg"] url
  then "image"
  else if endsWithAny [".woff"; ".woff2"; ".ttf"; ".eot"] url then "font"
  else if endsWithAny [".mp4"; ".webm"; ".ogg"] url then "video"
  else if includes url "/api/" || includes url "wp-json" then "api"
  else "other".

(** The number [x.toFixed(digits)] denotes: [x] rounded to [digits]
    decimals, a tie going away from zero. *)
Definition toFixed (digits : nat) (x : Q) : Q :=
  let scale := inject_Z (10 ^ Z.of_nat digits) in
  let n := inject_Z (Qfloor (Qabs x * scale + (1 # 2))) / scale in
  if Qltb x 0 then - n else n.

Definition sizeQ (n : N) : Q := inject_Z (Z.of_N n).

Definition compressionOf (entry : ResourceEntry.t) : Fixed :=
  if (0 <? ResourceEntry.encodedBodySize entry)%N then
    if (ResourceEntry.decodedBodySize entry =? 0)%N then NegInfinity
    else Finite (toFixed 1
           ((sizeQ (ResourceEntry.decodedBodySize entry)
             - sizeQ (ResourceEntry.encodedBodySize entry))
            / sizeQ (ResourceEntry.decodedBodySize entry) * 100))
  else Finite 0.

Definition efficiencyOf (entry : ResourceEntry.t) : Fixed :=
  if Qltb 0 (ResourceEntry.duration entry) then
    Finite (toFixed 2 (sizeQ (ResourceEntry.transferSize entry)
                       / ResourceEntry.duration entry))
  else Finite 0.

(** [f < bound] after the conversion of [f] to a number. *)
Definition fixedLt (f : Fixed) (bound : Q) : bool :=
  match f with
  | Finite q => Qltb q bound
  | NegInfinity => true
  end.

(** The object [analysis] before [issues] is attached. *)
Definition analysisOf (entry : ResourceEntry.t) : Analysis.t :=
  {| Analysis.name := ResourceEntry.name entry;
     Analysis.type := getResourceType (ResourceEntry.name entry);
     Analysis.size := ResourceEntry.transferSize entry;
     Analysis.duration := ResourceEntry.responseEnd entry - ResourceEntry.startTime entry;
     Analysis.cached := (ResourceEntry.transferSize entry =? 0)%N
                        && (0 <? ResourceEntry.decodedBodySize entry)%N;
     Analysis.compression := compressionOf entry;
     Analysis.efficiency := efficiencyOf entry;
     Analysis.issues := [] |}.

(** The array [issues]. *)
Definition issuesOf (entry : ResourceEntry.t) : list string :=
  let analysis := analysisOf entry in
  (if Qltb 3000 (Analysis.duration analysis) then ["slow_loading"] else [])
  ++ (if (1000000 <? Analysis.size analysis)%N
         && fixedLt (Analysis.compression analysis) 50
      then ["poor_compression"] else [])
  ++ (if negb (Analysis.cached analysis)
         && endsWithAny [".css"; ".js"; ".woff"; ".woff2"; ".png"; ".jpg"; ".jpeg"]
                        (ResourceEntry.name entry)
      then ["not_cached"] else []).

Definition withIssues (issues : list string) (a : Analysis.t) : Analysis.t :=
  {| Analysis.name := Analysis.name a; Analysis.type := Analysis.type a;
     Analysis.size := Analysis.size a; Analysis.duration := Analysis.duration a;
     Analysis.cached := Analysis.cached a;
     Analysis.compression := Analysis.compression a;
     Analysis.efficiency := Analysis.efficiency a;
     Analysis.issues := issues |}.

Definition analyzeResourcePerformance (c : Ctx) (entry : ResourceEntry.t) (m : Monitor)
  : Monitor :=
  let issues := issuesOf entry in
  if (0 <? length issues)%nat then
    reportMetric c "resource_issue" (ResourceIssue (withIssues issues (analysisOf entry))) m
  else m.

(** ** Statements read off the specification

    Where the code departs from a sentence of the specification, the sentence
    itself is kept here as a predicate, next to the code it speaks about. *)

(** "[destroy()] leaves zero buffered samples and makes a transport attempt
    via the beacon path if and only if the buffer was non-empty." *)
Definition destroy_as_specified (c : Ctx) (m : Monitor) : Prop :=
  buffer (destroy c m) = []
  /\ (buffer m <> [] <->
      exists endpoint report,
        network (destroy c m) = network m ++ [Beacon endpoint report]).

(** "After [destroy()], for every later [reportMetric] the buffer remains
    empty and nothing is appended." *)
Definition sealed_after_destroy (c c' : Ctx) (name : string) (data : MetricData)
           (m : Monitor) : Prop :=
  buffer (reportMetric c' name data (destroy c m)) = [].

(** The bands of a rating function with thresholds [t1 < t2]. *)
Definition bands (rate : Q -> string) (t1 t2 : Q) : Prop :=
  forall v : Q,
    (rate v = "good" <-> v <= t1)
    /\ (rate v = "needs-improvement" <-> t1 < v /\ v <= t2)
    /\ (rate v = "poor" <-> t2 < v).

(** ** Vocabulary of the statements about the buffer *)

Definition sampleOf (call : Ctx * string * MetricData) : Sample.t :=
  let '(c, name, data) := call in
  {| Sample.name := name; Sample.data := data; Sample.timestamp := now c |}.

(** The envelope [sendReport] builds from the monitor [m]. *)
Definition reportOf (c : Ctx) (m : Monitor) : Report.t :=
  {| Report.url := href c;
     Report.userAgent := navigatorUserAgent c;
     Report.timestamp := now c;
     Report.metrics := buffer m;
     Report.summary := getSummary m |}.

(** The request [sendReport] issues for it. *)
Definition requestOf (c : Ctx) (immediate : bool) (m : Monitor) : Request :=
  if immediate && sendBeacon c
  then Beacon (reportingEndpoint (options m)) (reportOf c m)
  else Fetch (reportingEndpoint (options m)) (reportOf c m).

(** What a flush of a non-empty buffer prints. *)
Definition printedBy (c : Ctx) (immediate : bool) (m : Monitor) : list ConsoleMsg :=
  (if debugMode (options m)
   then [ConsoleLog "Performance Monitor - Performance report sent:"] else [])
  ++ (if negb (immediate && sendBeacon c) && fetchRejects c && debugMode (options m)
      then [ConsoleError "Failed to send performance report:"] else []).

Definition isError (msg : ConsoleMsg) : bool :=
  match msg with
  | ConsoleError _ => true
  | ConsoleLog _ => false
  end.

(** ** Concrete monitors and contexts *)

Definition ctxBeacon : Ctx :=
  {| now := 1000%Z; href := "https://thefalse9.com/";
     navigatorUserAgent := "Mozilla/5.0";
     sendBeacon := true; fetchRejects := false |}.

(** A browser without [navigator.sendBeacon], on a network that fails. *)
Definition ctxNoBeacon : Ctx :=
  {| now := 2000%Z; href := "https://thefalse9.com/";
     navigatorUserAgent := "Mozilla/4.0";
     sendBeacon := false; fetchRejects := true |}.

Definition defaultOptions : Options :=
  {| reportingEndpoint := "/api/performance"; bufferSize := 100%Z;
     reportInterval := 30000%Z; debugMode := false |}.

(** The monitor as the constructor leaves it in a browser that has
    [PerformanceObserver]: nothing measured, nothing buffered, the generic
    observer connected and the report timer running. *)
Definition newPerformanceMonitor (o : Options) : Monitor :=
  {| options := o;
     metrics := {| coreWebVitals := {| lcp := None; inp := None; cls := None |};
                   resourceTimings := 0; userTimings := 0; customMetrics := 0 |};
     buffer := [];
     observer := Some true;
     reportTimer := Some true;
     network := [];
     console := [] |}.

Definition smallOptions : Options :=
  {| reportingEndpoint := "/api/performance"; bufferSize := 3%Z;
     reportInterval := 30000%Z; debugMode := true |}.

Definition threeCalls : list (Ctx * string * MetricData) :=
  [ (ctxBeacon, "alert", OtherData 1%N);
    (ctxBeacon, "error", OtherData 2%N);
    (ctxNoBeacon, "alert", OtherData 3%N) ].

(** A default monitor holding one sample. *)
Definition monitorOne : Monitor :=
  reportMetric ctxBeacon "error" (OtherData 7%N) (newPerformanceMonitor defaultOptions).

(** ** Vocabulary of the statements about the observers *)

Definition nonEmpty {A : Type} (notification : Ctx * list A) : Prop :=
  snd notification <> [].

(** The interaction [measureINP] pushes for an event entry. *)
Definition interactionOf (entry : EventEntry.t) : Interaction.t :=
  {| Interaction.id := EventEntry.interactionId entry;
     Interaction.latency := EventEntry.duration entry;
     Interaction.timestamp := EventEntry.startTime entry |}.

(** The interactions of the entries that carry an interaction identifier,
    in arrival order. *)
Definition interactionsOf (entries : list EventEntry.t) : list Interaction.t :=
  map interactionOf
      (filter (fun entry => negb (EventEntry.interactionId entry =? 0)%N) entries).



Definition eventEntry (id : N) (duration startTime : Q) : EventEntry.t :=
  {| EventEntry.interactionId := id;
     EventEntry.duration := duration;
     EventEntry.startTime := startTime |}.


Definition lcpEntry (startTime : Q) (element : Handle) : LcpEntry.t :=
  {| LcpEntry.startTime := startTime; LcpEntry.element := element |}.

(** ** Vocabulary of the statements about layout shifts *)

(** The entries of the notifications, each with the context of its callback,
    and the run of [measureCLS_entry] over them. *)
Definition eventsOf {A : Type} (notifications : list (Ctx * list A)) : list (Ctx * A) :=
  concat (map (fun n => map (pair (fst n)) (snd n)) notifications).

Fixpoint runCLS (events : list (Ctx * LayoutShift.t)) (st : ClsState * Monitor)
  : result (ClsState * Monitor) :=
  match events with
  | [] => Ok st
  | (c, entry) :: rest => bind (measureCLS_entry c st entry) (runCLS rest)
  end.

(** The condition under which the code opens a new session: the value of the
    current session is zero (as before the first entry), or the entry comes
    1000ms or more after the last entry of the session, or 5000ms or more
    after its first. *)
Definition newSession (s : ClsState) (entry : LayoutShift.t) : Prop :=
  sessionValue s == 0
  \/ (exists l, nth_error (sessionEntries s) (length (sessionEntries s) - 1) = Some l
                /\ 1000 <= LayoutShift.startTime entry - LayoutShift.startTime l)
  \/ (exists f, nth_error (sessionEntries s) 0 = Some f
                /\ 5000 <= LayoutShift.startTime entry - LayoutShift.startTime f).



(** A session with a value has an entry. *)
Definition clsWellFormed (s : ClsState) : Prop :=
  truthy (sessionValue s) = true -> sessionEntries s <> [].

(** What is reported for a state of the accumulator: nothing new while the
    CLS is still the initial 0, else a sample of the CLS. *)
Definition clsReported (m0 : Monitor) (s : ClsState) (m : Monitor) : Prop :=
  (clsValue s = 0 /\ cls (vitals m) = cls (vitals m0))
  \/ (exists v, cls (vitals m) = Some v
                /\ Vital.value v = Num (clsValue s)
                /\ Vital.rating v = rateCLS (clsValue s)).

(** The sum of the values of the entries of a session, added in order. *)
Definition sessionSum (entries : list LayoutShift.t) : Q :=
  match entries with
  | [] => 0
  | first :: rest =>
      fold_left (fun sum entry => sum + LayoutShift.value entry) rest
                (LayoutShift.value first)
  end.

Definition clsInvariant (m0 : Monitor) (s : ClsState) (m : Monitor) : Prop :=
  clsWellFormed s /\ sessionValue s <= clsValue s /\ clsReported m0 s m
  /\ sessionValue s = sessionSum (sessionEntries s).

Definition layoutShift (startTime value : Q) : LayoutShift.t :=
  {| LayoutShift.startTime := startTime; LayoutShift.value := value;
     LayoutShift.hadRecentInput := false; LayoutShift.sources := 0%N |}.

(** Two shifts exactly 1000ms apart, and the accumulator after the first. *)
Definition shiftAt0 : LayoutShift.t := layoutShift 0 0.1.

Definition sessionOfShiftAt0 : ClsState :=
  {| clsValue := 0.1; sessionValue := 0.1; sessionEntries := [shiftAt0] |}.


(** ** Vocabulary of the statements about resources *)

Definition cacheableExtensions : list string :=
  [".css"; ".js"; ".woff"; ".woff2"; ".png"; ".jpg"; ".jpeg"].

(** The compression percentage before rounding. *)
Definition compressionRatio (entry : ResourceEntry.t) : Q :=
  (sizeQ (ResourceEntry.decodedBodySize entry)
   - sizeQ (ResourceEntry.encodedBodySize entry))
  / sizeQ (ResourceEntry.decodedBodySize entry) * 100.


Definition resourceEntry (name : string) (startTime responseEnd : Q)
           (transferSize encodedBodySize decodedBodySize : N) : ResourceEntry.t :=
  {| ResourceEntry.name := name;
     ResourceEntry.startTime := startTime;
     ResourceEntry.responseEnd := responseEnd;
     ResourceEntry.duration := responseEnd - startTime;
     ResourceEntry.transferSize := transferSize;
     ResourceEntry.encodedBodySize := encodedBodySize;
     ResourceEntry.decodedBodySize := decodedBodySize |}.


Definition lcpEarlier : list (Ctx * list LcpEntry.t) :=
  [ (ctxBeacon, [lcpEntry 800 1%N]); (ctxBeacon, [lcpEntry 1200 2%N; lcpEntry 1900 3%N]) ].

(** ** The percentile index in binary64

    [0.98] is not a binary64 number; the literal denotes the nearest one,
    [0x1.f5c28f5c28f5cp-1].  For a float [n] holding a whole number,
    [Math.floor(n * 0.98)] is [n - 1] exactly when the rounded product lies
    in [[n - 1, n)]. *)
Definition literal098 : PrimFloat.float := 0x1.f5c28f5c28f5cp-1%float.

Definition floorIsPredecessor (n : PrimFloat.float) : bool :=
  PrimFloat.leb (PrimFloat.sub n 1%float) (PrimFloat.mul n literal098)
  && PrimFloat.ltb (PrimFloat.mul n literal098) n.

(** ** Callers of the buffer *)

(** [trackError(errorData)]: the object is the caller's and goes into the
    sample as it is. *)
Definition trackError (c : Ctx) (errorData : Handle) (m : Monitor) : Monitor :=
  let m1 := reportMetric c "error" (OtherData errorData) m in
  if debugMode (options m1)
  then print (ConsoleError "Performance Monitor - Error tracked:") m1
  else m1.

(** What reaches the buffer during the life of a monitor: a [reportMetric]
    call of an observer or an alert, a tracked error, the tick of the
    interval [setupReporting] starts (which [clearInterval] silences), the
    [beforeunload] listener it registers, and [destroy()]. *)
Inductive Op : Type :=
| OpReport (c : Ctx) (name : string) (data : MetricData)
| OpTrackError (c : Ctx) (errorData : Handle)
| OpTick (c : Ctx)
| OpBeforeUnload (c : Ctx)
| OpDestroy (c : Ctx).

Definition runOp (m : Monitor) (op : Op) : Monitor :=
  match op with
  | OpReport c name data => reportMetric c name data m
  | OpTrackError c errorData => trackError c errorData m
  | OpTick c =>
      match reportTimer m with
      | Some true => sendReport c false m
      | _ => m
      end
  | OpBeforeUnload c => sendReport c true m
  | OpDestroy c => destroy c m
  end.

Definition runOps (ops : list Op) (m : Monitor) : Monitor :=
  fold_left runOp ops m.

(** The samples the operations hand to [reportMetric], in order. *)
Definition samplesOf (ops : list Op) : list Sample.t :=
  flat_map (fun op =>
              match op with
              | OpReport c name data => [sampleOf (c, name, data)]
              | OpTrackError c errorData => [sampleOf (c, "error", OtherData errorData)]
              | _ => []
              end) ops.

(** The size of the report a request carries. *)
Definition reportSize (r : Request) : nat := length (Report.metrics (body r)).

Definition someOps : list Op :=
  [ OpReport ctxBeacon "alert" (OtherData 1%N);
    OpTick ctxNoBeacon;
    OpTrackError ctxBeacon 2%N;
    OpReport ctxBeacon "alert" (OtherData 3%N);
    OpReport ctxNoBeacon "alert" (OtherData 4%N);
    OpBeforeUnload ctxBeacon;
    OpTrackError ctxBeacon 5%N;
    OpDestroy ctxBeacon;
    OpTick ctxBeacon;
    OpReport ctxBeacon "alert" (OtherData 6%N) ].

(** An operation that prints nothing, and keeps the options, on a monitor
    whose debug mode is off. *)
Definition quiet (f : Monitor -> Monitor) : Prop :=
  forall m : Monitor,
    debugMode (options m) = false ->
    console (f m) = console m /\ options (f m) = options m.

(** The number a vital sample carries (0 for any other sample). *)
Definition sampleValue (s : Sample.t) : Q :=
  match Sample.data s with
  | VitalData v =>
      match Vital.value v with
      | Num q => q
      | Undefined => 0
      end
  | _ => 0
  end.




(** ** CSS helpers *)

(** The number of matches of a global regular expression that matches one
    character of a class: the number of characters of the class. *)
Fixpoint countMatches (class : ascii -> bool) (s : string) : nat :=
  match s with
  | EmptyString => 0
  | String a rest => (if class a then 1 else 0) + countMatches class rest
  end.

(** [[a-zA-Z]]. *)
Definition isLetter (a : ascii) : bool :=
  let n := nat_of_ascii a in
  ((97 <=? n) && (n <=? 122) || (65 <=? n) && (n <=? 90))%nat.

(** [CSSUtils.calculateSpecificity(selector)]. *)
Definition calculateSpecificity (selector : string) : Z :=
  let ids := Z.of_nat (countMatches (Ascii.eqb "#") selector) in
  let classes := Z.of_nat (countMatches (Ascii.eqb ".") selector) in
  let elements := (Z.of_nat (countMatches isLetter selector) - classes)%Z in
  (ids * 100 + classes * 10 + elements)%Z.

(** [isCriticalMediaQuery(mediaText)]; the empty string is the falsy one. *)
Definition isCriticalMediaQuery (mediaText : string) : bool :=
  if String.eqb mediaText "" then true
  else if includes mediaText "print" then false
  else if includes mediaText "max-width" || includes mediaText "min-width" then true
  else if includes mediaText "prefers-reduced-motion" then true
  else true.

(** ** Vocabulary of the further statements *)

(** The ratings from best to worst. *)
Definition ratingRank (rating : string) : nat :=
  if String.eqb rating "good" then 0
  else if String.eqb rating "needs-improvement" then 1
  else 2.

(** A rating function never answers better for a larger value. *)
Definition neverImproves (rate : Q -> string) : Prop :=
  forall v w : Q, v <= w -> (ratingRank (rate v) <= ratingRank (rate w))%nat.

Definition knownExtensions : list string :=
  [".css"; ".js"; ".png"; ".jpg"; ".jpeg"; ".gif"; ".webp"; ".avif"; ".svg";
   ".woff"; ".woff2"; ".ttf"; ".eot"; ".mp4"; ".webm"; ".ogg"].

(** * Properties *)

(** ** Comparisons *)

Lemma Qltb_iff (x y : Q) : Qltb x y = true <-> x < y.
Proof.
  unfold Qltb. rewrite negb_true_iff.
  split; intro H.
  - apply Qnot_le_lt. intro Hle. apply Qle_bool_iff in Hle. congruence.
  - destruct (Qle_bool y x) eqn:E; [|reflexivity].
    apply Qle_bool_iff in E. lra.
Qed.

Lemma Qltb_false_iff (x y : Q) : Qltb x y = false <-> y <= x.
Proof.
  unfold Qltb. rewrite negb_false_iff. apply Qle_bool_iff.
Qed.

Lemma Qle_bool_false_iff (x y : Q) : Qle_bool x y = false <-> y < x.
Proof.
  rewrite <- Qltb_iff. unfold Qltb. apply iff_sym, negb_true_iff.
Qed.

Lemma truthy_iff (q : Q) : truthy q = true <-> ~ q == 0.
Proof.
  unfold truthy. rewrite negb_true_iff.
  split; intro H.
  - intro E. apply Qeq_bool_iff in E. congruence.
  - destruct (Qeq_bool q 0) eqn:E; [|reflexivity].
    apply Qeq_bool_iff in E. contradiction.
Qed.

(** ** Rating functions *)

Lemma bands_of_thresholds (rate : Q -> string) (t1 t2 : Q) :
  t1 < t2 ->
  (forall v, rate v = if Qle_bool v t1 then "good"
                      else if Qle_bool v t2 then "needs-improvement" else "poor") ->
  bands rate t1 t2.
Proof.
  intros Hlt Hrate v. rewrite Hrate.
  destruct (Qle_bool v t1) eqn:E1.
  - apply Qle_bool_iff in E1.
    repeat split; intros; try discriminate; try tauto; lra.
  - apply Qle_bool_false_iff in E1.
    destruct (Qle_bool v t2) eqn:E2.
    + apply Qle_bool_iff in E2.
      repeat split; intros; try discriminate; try tauto; lra.
    + apply Qle_bool_false_iff in E2.
      repeat split; intros; try discriminate; try tauto; lra.
Qed.

(** C9.  The bands of every rating function include their upper bound:
    [rateLCP] answers "good" at 2499 and at 2500, "needs-improvement" at
    2501 and "poor" at 4001; and each of [rateLCP], [rateFID], [rateINP],
    [rateCLS], [rateFCP] and [rateTTI] answers "good" at or below its first
    threshold, "needs-improvement" above it and at or below its second, and
    "poor" strictly above the second. *)
Theorem rating_bands_inclusive :
  (rateLCP 2499 = "good" /\ rateLCP 2500 = "good"
   /\ rateLCP 2501 = "needs-improvement" /\ rateLCP 4001 = "poor")
  /\ bands rateLCP 2500 4000
  /\ bands rateFID 100 300
  /\ bands rateINP 200 500
  /\ bands rateCLS 0.1 0.25
  /\ bands rateFCP 1800 3000
  /\ bands rateTTI 3800 7300.
Proof.
  split; [repeat split; reflexivity|].
  repeat apply conj; (apply bands_of_thresholds; [reflexivity | reflexivity]).
Qed.

(** ** Report buffer and transport *)

Lemma sendReport_empty (c : Ctx) (immediate : bool) (m : Monitor) :
  buffer m = [] -> sendReport c immediate m = m.
Proof.
  intro H. unfold sendReport. rewrite H. reflexivity.
Qed.

Lemma sendReport_nonempty (c : Ctx) (immediate : bool) (m : Monitor) :
  buffer m <> [] ->
  buffer (sendReport c immediate m) = []
  /\ options (sendReport c immediate m) = options m
  /\ metrics (sendReport c immediate m) = metrics m
  /\ observer (sendReport c immediate m) = observer m
  /\ reportTimer (sendReport c immediate m) = reportTimer m
  /\ network (sendReport c immediate m) = network m ++ [requestOf c immediate m]
  /\ console (sendReport c immediate m) = console m ++ printedBy c immediate m.
Proof.
  intro H. unfold sendReport, requestOf, printedBy, reportOf, log.
  destruct (buffer m) as [|s b] eqn:Eb; [congruence|].
  destruct (immediate && sendBeacon c); cbn [negb andb].
  - destruct (debugMode (options m)) eqn:Ed; simpl; rewrite ?Ed; simpl;
      rewrite ?Eb, ?app_nil_r; repeat split; reflexivity.
  - destruct (debugMode (options m)) eqn:Ed; simpl; rewrite ?Ed; simpl;
      destruct (fetchRejects c); simpl; rewrite ?Ed; simpl;
      rewrite ?Eb, <- ?app_assoc, ?app_nil_r; repeat split; reflexivity.
Qed.

Lemma sendReport_buffer (c : Ctx) (immediate : bool) (m : Monitor) :
  buffer (sendReport c immediate m) = [].
Proof.
  destruct (buffer m) as [|s b] eqn:E.
  - rewrite sendReport_empty; assumption.
  - apply sendReport_nonempty. congruence.
Qed.

(** C4.  [sendReport] does nothing on an empty buffer.  On a non-empty one
    it moves the whole buffer into the envelope (url, userAgent, timestamp,
    metrics, summary) of the one request it issues; whatever the transport
    does, the buffer is empty afterwards, and a failure is printed only in
    debug mode (and only on the [fetch] path, whose rejection is caught). *)
Theorem sendReport_swaps_buffer (c : Ctx) (immediate : bool) (m : Monitor) :
  (buffer m = [] -> sendReport c immediate m = m)
  /\ (buffer m <> [] ->
      buffer (sendReport c immediate m) = []
      /\ (exists request,
             network (sendReport c immediate m) = network m ++ [request]
             /\ body request =
                {| Report.url := href c;
                   Report.userAgent := navigatorUserAgent c;
                   Report.timestamp := now c;
                   Report.metrics := buffer m;
                   Report.summary := getSummary m |})
      /\ (exists printed,
             console (sendReport c immediate m) = console m ++ printed
             /\ (existsb isError printed = true <->
                 debugMode (options m) = true /\ fetchRejects c = true
                 /\ immediate && sendBeacon c = false))).
Proof.
  split; [apply sendReport_empty|].
  intro H. destruct (sendReport_nonempty c immediate m H)
    as (Hb & _ & _ & _ & _ & Hn & Hc).
  split; [exact Hb|]. split.
  - exists (requestOf c immediate m). split; [exact Hn|].
    unfold requestOf. destruct (immediate && sendBeacon c); reflexivity.
  - exists (printedBy c immediate m). split; [exact Hc|].
    unfold printedBy.
    destruct (debugMode (options m)), (fetchRejects c), (immediate && sendBeacon c);
      cbn; intuition congruence.
Qed.

Lemma reportMetric_keep (c : Ctx) (name : string) (data : MetricData) (m : Monitor) :
  (Z.of_nat (length (buffer m) + 1) < bufferSize (options m))%Z ->
  reportMetric c name data m =
  set_buffer (buffer m ++ [sampleOf (c, name, data)]) m.
Proof.
  intro H. unfold reportMetric. cbn [buffer options set_buffer].
  rewrite length_app. cbn [length].
  destruct (Z.geb_spec (Z.of_nat (length (buffer m) + 1)) (bufferSize (options m)));
    [lia | reflexivity].
Qed.

Lemma reportMetric_flush (c : Ctx) (name : string) (data : MetricData) (m : Monitor) :
  (bufferSize (options m) <= Z.of_nat (length (buffer m) + 1))%Z ->
  reportMetric c name data m =
  sendReport c false (set_buffer (buffer m ++ [sampleOf (c, name, data)]) m).
Proof.
  intro H. unfold reportMetric. cbn [buffer options set_buffer].
  rewrite length_app. cbn [length].
  destruct (Z.geb_spec (Z.of_nat (length (buffer m) + 1)) (bufferSize (options m)));
    [reflexivity | lia].
Qed.

Lemma reportMetric_flush_fields (c : Ctx) (name : string) (data : MetricData) (m : Monitor) :
  (bufferSize (options m) <= Z.of_nat (length (buffer m) + 1))%Z ->
  buffer (reportMetric c name data m) = []
  /\ exists request,
       network (reportMetric c name data m) = network m ++ [request]
       /\ isBeacon request = false
       /\ Report.metrics (body request) = buffer m ++ [sampleOf (c, name, data)].
Proof.
  intro H. rewrite (reportMetric_flush _ _ _ _ H).
  set (m1 := set_buffer (buffer m ++ [sampleOf (c, name, data)]) m).
  assert (Hne : buffer m1 <> []) by (cbn; destruct (buffer m); discriminate).
  destruct (sendReport_nonempty c false m1 Hne) as (Hb & _ & _ & _ & _ & Hn & _).
  split; [exact Hb|].
  exists (requestOf c false m1). repeat split; assumption || reflexivity.
Qed.

Lemma reportMetric_options (c : Ctx) (name : string) (data : MetricData) (m : Monitor) :
  options (reportMetric c name data m) = options m.
Proof.
  destruct (Z.lt_ge_cases (Z.of_nat (length (buffer m) + 1)) (bufferSize (options m)))
    as [H|H].
  - rewrite reportMetric_keep by exact H. reflexivity.
  - rewrite reportMetric_flush by exact H.
    set (m1 := set_buffer _ m).
    assert (Hne : buffer m1 <> []) by (cbn; destruct (buffer m); discriminate).
    destruct (sendReport_nonempty c false m1 Hne) as (_ & Ho & _). exact Ho.
Qed.

Lemma reportMetric_metrics (c : Ctx) (name : string) (data : MetricData) (m : Monitor) :
  metrics (reportMetric c name data m) = metrics m.
Proof.
  destruct (Z.lt_ge_cases (Z.of_nat (length (buffer m) + 1)) (bufferSize (options m)))
    as [H|H].
  - rewrite reportMetric_keep by exact H. reflexivity.
  - rewrite reportMetric_flush by exact H.
    set (m1 := set_buffer _ m).
    assert (Hne : buffer m1 <> []) by (cbn; destruct (buffer m); discriminate).
    destruct (sendReport_nonempty c false m1 Hne) as (_ & _ & Hm & _). exact Hm.
Qed.

(** Whether it stays in the buffer or leaves with a report, the sample of a
    [reportMetric] call is the last one accepted. *)
Lemma reportMetric_recorded (c : Ctx) (name : string) (data : MetricData) (m : Monitor) :
  recorded (reportMetric c name data m) = recorded m ++ [sampleOf (c, name, data)].
Proof.
  unfold recorded.
  destruct (Z.lt_ge_cases (Z.of_nat (length (buffer m) + 1)) (bufferSize (options m)))
    as [H|H].
  - rewrite reportMetric_keep by exact H. cbn [network buffer set_buffer].
    now rewrite app_assoc.
  - destruct (reportMetric_flush_fields c name data m H) as (Hb & r & Hn & _ & Hr).
    rewrite Hb, Hn, map_app, concat_app. cbn [map concat].
    rewrite Hr, !app_nil_r. now rewrite app_assoc.
Qed.

Lemma reportMetric_bounded (c : Ctx) (name : string) (data : MetricData) (m : Monitor) :
  (0 < bufferSize (options m))%Z ->
  (Z.of_nat (length (buffer (reportMetric c name data m))) < bufferSize (options m))%Z.
Proof.
  intro Hpos.
  destruct (Z.lt_ge_cases (Z.of_nat (length (buffer m) + 1)) (bufferSize (options m)))
    as [H|H].
  - rewrite reportMetric_keep by exact H. cbn [buffer set_buffer].
    rewrite length_app. cbn [length]. exact H.
  - destruct (reportMetric_flush_fields c name data m H) as (Hb & _).
    rewrite Hb. exact Hpos.
Qed.

Lemma reportAll_app (calls1 calls2 : list (Ctx * string * MetricData)) (m : Monitor) :
  reportAll (calls1 ++ calls2) m = reportAll calls2 (reportAll calls1 m).
Proof.
  revert m. induction calls1 as [|[[c name] data] calls1 IH]; intro m; cbn.
  - reflexivity.
  - apply IH.
Qed.

Lemma reportAll_options (calls : list (Ctx * string * MetricData)) (m : Monitor) :
  options (reportAll calls m) = options m.
Proof.
  revert m. induction calls as [|[[c name] data] calls IH]; intro m; cbn.
  - reflexivity.
  - rewrite IH. apply reportMetric_options.
Qed.

(** Calls that do not fill the buffer only append to it. *)
Lemma reportAll_keep (calls : list (Ctx * string * MetricData)) (m : Monitor) :
  (Z.of_nat (length (buffer m) + length calls) < bufferSize (options m))%Z ->
  network (reportAll calls m) = network m
  /\ buffer (reportAll calls m) = buffer m ++ map sampleOf calls.
Proof.
  revert m. induction calls as [|[[c name] data] calls IH]; intros m H; cbn [reportAll].
  - cbn. now rewrite app_nil_r.
  - cbn [length] in H.
    rewrite reportMetric_keep by lia.
    destruct (IH (set_buffer (buffer m ++ [sampleOf (c, name, data)]) m)) as [Hn Hb].
    + cbn [buffer options set_buffer]. rewrite length_app. cbn [length]. lia.
    + split; [exact Hn|].
      rewrite Hb. cbn [buffer set_buffer map]. now rewrite <- app_assoc.
Qed.

Lemma split_at {A : Type} (p : nat) (l : list A) :
  (p < length l)%nat ->
  exists x, l = firstn p l ++ x :: skipn (S p) l.
Proof.
  revert l. induction p as [|p IH]; intros [|a l] H; cbn in H; try lia.
  - exists a. reflexivity.
  - destruct (IH l ltac:(lia)) as [x Hx]. exists x.
    cbn [firstn skipn app]. f_equal. exact Hx.
Qed.

(** C3.  [bufferSize] calls of [reportMetric] in a row, from any state of
    the buffer, trigger exactly one flush: no request before the call that
    fills the buffer, one request by it, carrying everything buffered, after
    which the buffer is empty, and no request by the calls that follow.
    After a [reportMetric] call the buffer holds fewer than [bufferSize]
    samples. *)
Theorem buffer_full_flushes_once
        (calls : list (Ctx * string * MetricData)) (m : Monitor) :
  (0 < bufferSize (options m))%Z ->
  Z.of_nat (length calls) = bufferSize (options m) ->
  exists before call after,
    calls = before ++ call :: after
    /\ network (reportAll before m) = network m
    /\ buffer (reportAll (before ++ [call]) m) = []
    /\ (exists request,
           network (reportAll (before ++ [call]) m) = network m ++ [request]
           /\ Report.metrics (body request)
              = buffer m ++ map sampleOf (before ++ [call]))
    /\ network (reportAll calls m) = network (reportAll (before ++ [call]) m)
    /\ length (network (reportAll calls m)) = S (length (network m))
    /\ buffer (reportAll calls m) = map sampleOf after
    /\ (buffer m = [] -> buffer (reportAll calls m) = [])
    /\ (Z.of_nat (length (buffer (reportAll calls m))) < bufferSize (options m))%Z
    /\ (forall c name data,
           (Z.of_nat (length (buffer (reportMetric c name data m)))
            < bufferSize (options m))%Z).
Proof.
  intros Hpos Hlen.
  set (k := length (buffer m)).
  set (p := (length calls - 1 - k)%nat).
  assert (Hp : (p < length calls)%nat) by lia.
  destruct (split_at p calls Hp) as [call Hsplit].
  set (before := firstn p calls) in *.
  set (after := skipn (S p) calls) in *.
  assert (Hlb : length before = p) by (apply firstn_length_le; lia).
  assert (Hla : length after = (length calls - S p)%nat) by apply length_skipn.
  exists before, call, after.
  (* the calls before the one that fills the buffer *)
  assert (Hbefore : network (reportAll before m) = network m
                    /\ buffer (reportAll before m) = buffer m ++ map sampleOf before).
  { destruct (Nat.eq_dec p 0) as [E|E].
    - destruct before; [|cbn in Hlb; lia]. cbn. now rewrite app_nil_r.
    - apply reportAll_keep. fold k. lia. }
  destruct Hbefore as [Hn1 Hb1].
  (* the call that fills it *)
  destruct call as [[c name] data].
  assert (Hfull : (bufferSize (options (reportAll before m))
                   <= Z.of_nat (length (buffer (reportAll before m)) + 1))%Z).
  { rewrite reportAll_options, Hb1, length_app, length_map. fold k. lia. }
  destruct (reportMetric_flush_fields c name data _ Hfull) as (Hb2 & r & Hn2 & _ & Hr).
  assert (Hstep : reportAll (before ++ [(c, name, data)]) m
                  = reportMetric c name data (reportAll before m))
    by (rewrite reportAll_app; reflexivity).
  (* the calls after it *)
  assert (Hafter : network (reportAll calls m)
                   = network (reportAll (before ++ [(c, name, data)]) m)
                   /\ buffer (reportAll calls m) = map sampleOf after).
  { rewrite Hsplit at 1 2.
    replace (before ++ (c, name, data) :: after)
      with ((before ++ [(c, name, data)]) ++ after) by now rewrite <- app_assoc.
    rewrite (reportAll_app (before ++ [(c, name, data)]) after).
    destruct (reportAll_keep after (reportAll (before ++ [(c, name, data)]) m))
      as [Hn3 Hb3].
    - rewrite reportAll_options, Hstep, Hb2. cbn [length]. lia.
    - rewrite Hn3, Hb3, Hstep, Hb2. split; reflexivity. }
  destruct Hafter as [Hn3 Hb3].
  repeat apply conj.
  - exact Hsplit.
  - exact Hn1.
  - rewrite Hstep. exact Hb2.
  - exists r. rewrite Hstep, Hn2, Hn1. split; [reflexivity|].
    rewrite Hr, Hb1, map_app. cbn [map]. now rewrite app_assoc.
  - exact Hn3.
  - rewrite Hn3, Hstep, Hn2, Hn1, length_app. cbn [length]. lia.
  - exact Hb3.
  - intro He. rewrite Hb3.
    assert (Hk : k = 0%nat) by (unfold k; rewrite He; reflexivity).
    assert (Hz : length after = 0%nat) by lia.
    destruct after; [reflexivity | discriminate].
  - rewrite Hb3, length_map. lia.
  - intros c' name' data'. apply reportMetric_bounded. exact Hpos.
Qed.

Lemma buffer_full_flushes_once_witness :
  (0 < bufferSize (options (newPerformanceMonitor smallOptions)))%Z
  /\ Z.of_nat (length threeCalls) = bufferSize (options (newPerformanceMonitor smallOptions))
  /\ length (network (reportAll threeCalls (newPerformanceMonitor smallOptions))) = 1%nat
  /\ buffer (reportAll threeCalls (newPerformanceMonitor smallOptions)) = [].
Proof.
  assert (H1 : (0 < bufferSize (options (newPerformanceMonitor smallOptions)))%Z)
    by reflexivity.
  assert (H2 : Z.of_nat (length threeCalls)
               = bufferSize (options (newPerformanceMonitor smallOptions)))
    by reflexivity.
  destruct (buffer_full_flushes_once threeCalls (newPerformanceMonitor smallOptions) H1 H2)
    as (before & call & after & _ & _ & _ & _ & _ & Hn & _ & Hb & _).
  exact (conj H1 (conj H2 (conj Hn (Hb eq_refl)))).
Defined.

Lemma sendReport_swaps_buffer_witness :
  buffer monitorOne <> []
  /\ buffer (sendReport ctxNoBeacon false monitorOne) = [].
Proof.
  assert (H : buffer monitorOne <> []) by discriminate.
  split; [exact H|].
  exact (proj1 (proj2 (sendReport_swaps_buffer ctxNoBeacon false monitorOne) H)).
Defined.

(** ** Teardown *)

Lemma destroy_unfold (c : Ctx) (m : Monitor) :
  exists m', destroy c m = sendReport c true m'
             /\ buffer m' = buffer m /\ options m' = options m
             /\ network m' = network m /\ metrics m' = metrics m
             /\ observer m' = option_map (fun _ => false) (observer m)
             /\ reportTimer m' = option_map (fun _ => false) (reportTimer m).
Proof.
  unfold destroy.
  destruct (observer m) eqn:Eo; destruct (reportTimer m) eqn:Et; cbn;
    rewrite ?Et; cbn; eexists; (split; [reflexivity|]); cbn; rewrite ?Eo, ?Et;
    repeat split; reflexivity.
Qed.

Lemma destroy_buffer (c : Ctx) (m : Monitor) : buffer (destroy c m) = [].
Proof.
  destruct (destroy_unfold c m) as (m' & E & _). rewrite E. apply sendReport_buffer.
Qed.

(** The sentence of the specification fails where [navigator.sendBeacon] is
    missing: the final report leaves through [fetch]. *)
Lemma destroy_without_beacon_uses_fetch :
  ~ destroy_as_specified ctxNoBeacon monitorOne.
Proof.
  intros [_ [H _]].
  destruct H as (endpoint & report & Hn); [discriminate|].
  vm_compute in Hn. discriminate Hn.
Qed.

(** C5 (amended).  [destroy()] leaves the buffer empty.  It issues no
    request when the buffer was empty and exactly one, carrying the whole
    buffer, when it was not; that request is a beacon when
    [navigator.sendBeacon] exists and a [fetch] otherwise. *)
Theorem destroy_flushes (c : Ctx) (m : Monitor) :
  buffer (destroy c m) = []
  /\ (buffer m = [] -> network (destroy c m) = network m)
  /\ (buffer m <> [] ->
      exists request,
        network (destroy c m) = network m ++ [request]
        /\ Report.metrics (body request) = buffer m
        /\ isBeacon request = sendBeacon c).
Proof.
  split; [apply destroy_buffer|].
  destruct (destroy_unfold c m) as (m' & E & Hb & Ho & Hn & _).
  rewrite E. split; intro H.
  - rewrite sendReport_empty by congruence. exact Hn.
  - destruct (sendReport_nonempty c true m') as (_ & _ & _ & _ & _ & Hn' & _);
      [congruence|].
    exists (requestOf c true m'). rewrite Hn', Hn. split; [reflexivity|].
    unfold requestOf. cbn [andb].
    destruct (sendBeacon c); cbn; rewrite Hb; split; reflexivity.
Qed.

Lemma destroy_flushes_witness :
  buffer monitorOne <> []
  /\ exists request,
       network (destroy ctxNoBeacon monitorOne) = network monitorOne ++ [request]
       /\ Report.metrics (body request) = buffer monitorOne
       /\ isBeacon request = sendBeacon ctxNoBeacon.
Proof.
  assert (H : buffer monitorOne <> []) by discriminate.
  split; [exact H|].
  exact (proj2 (proj2 (destroy_flushes ctxNoBeacon monitorOne)) H).
Defined.

(** The sentence of the specification fails on any monitor whose buffer
    takes more than one sample: the call after [destroy()] is buffered. *)
Lemma late_sample_is_buffered :
  ~ sealed_after_destroy ctxBeacon ctxBeacon "error" (OtherData 9%N) monitorOne.
Proof.
  unfold sealed_after_destroy. vm_compute. discriminate.
Qed.

(** C7 (amended).  [destroy()] empties the buffer, disconnects the generic
    observer and clears the report timer, and nothing more: a later
    [reportMetric] is accepted like any other, and with a [bufferSize]
    above 1 its sample is then the one sample in the buffer. *)
Theorem reportMetric_after_destroy
        (c c' : Ctx) (name : string) (data : MetricData) (m : Monitor) :
  buffer (destroy c m) = []
  /\ observer (destroy c m) = option_map (fun _ => false) (observer m)
  /\ reportTimer (destroy c m) = option_map (fun _ => false) (reportTimer m)
  /\ recorded (reportMetric c' name data (destroy c m))
     = recorded (destroy c m) ++ [sampleOf (c', name, data)]
  /\ ((1 < bufferSize (options m))%Z ->
      buffer (reportMetric c' name data (destroy c m)) = [sampleOf (c', name, data)]).
Proof.
  split; [apply destroy_buffer|].
  destruct (destroy_unfold c m) as (m' & E & Hb & Ho & Hn & Hm & Hobs & Ht).
  assert (Hfields : observer (destroy c m) = observer m'
                    /\ reportTimer (destroy c m) = reportTimer m'
                    /\ options (destroy c m) = options m').
  { rewrite E. destruct (buffer m') as [|s b] eqn:Eb.
    - rewrite sendReport_empty by exact Eb. repeat split.
    - destruct (sendReport_nonempty c true m') as (_ & H1 & _ & H2 & H3 & _);
        [congruence|]. repeat split; assumption. }
  destruct Hfields as (Ho' & Ht' & Hopt).
  split; [congruence|]. split; [congruence|].
  split; [apply reportMetric_recorded|].
  intro Hsize. rewrite reportMetric_keep.
  - cbn [buffer set_buffer]. now rewrite destroy_buffer.
  - rewrite destroy_buffer, Hopt, Ho. cbn. lia.
Qed.

Lemma reportMetric_after_destroy_witness :
  (1 < bufferSize (options monitorOne))%Z
  /\ buffer (reportMetric ctxBeacon "error" (OtherData 9%N) (destroy ctxBeacon monitorOne))
     = [sampleOf (ctxBeacon, "error", OtherData 9%N)].
Proof.
  assert (H : (1 < bufferSize (options monitorOne))%Z) by reflexivity.
  split; [exact H|].
  exact (proj2 (proj2 (proj2 (proj2
           (reportMetric_after_destroy ctxBeacon ctxBeacon "error" (OtherData 9%N)
                                       monitorOne)))) H).
Defined.

(** ** Largest Contentful Paint *)

Lemma log_fields (label : string) (m : Monitor) :
  metrics (log label m) = metrics m /\ buffer (log label m) = buffer m
  /\ options (log label m) = options m /\ network (log label m) = network m.
Proof.
  unfold log. destruct (debugMode (options m)); repeat split.
Qed.

Lemma log_recorded (label : string) (m : Monitor) : recorded (log label m) = recorded m.
Proof.
  unfold recorded. destruct (log_fields label m) as (_ & Hb & _ & Hn).
  now rewrite Hb, Hn.
Qed.

Lemma nth_error_last {A : Type} (l : list A) (x : A) :
  nth_error (l ++ [x]) (length (l ++ [x]) - 1) = Some x.
Proof.
  rewrite length_app. cbn [length].
  replace (length l + 1 - 1)%nat with (length l) by lia.
  rewrite nth_error_app2 by lia. now rewrite Nat.sub_diag.
Qed.

Lemma deliverLCP_app (ns1 ns2 : list (Ctx * list LcpEntry.t)) (m : Monitor) :
  deliverLCP (ns1 ++ ns2) m = bind (deliverLCP ns1 m) (deliverLCP ns2).
Proof.
  revert m. induction ns1 as [|[c entries] ns1 IH]; intro m; cbn [app deliverLCP].
  - reflexivity.
  - destruct (measureLCP_callback c entries m) as [m1|exn]; cbn [bind].
    + apply IH.
    + reflexivity.
Qed.

(** The browser never notifies an observer of an empty list; on non-empty
    lists the callback does not raise. *)
Lemma deliverLCP_total (ns : list (Ctx * list LcpEntry.t)) (m : Monitor) :
  Forall nonEmpty ns -> exists m', deliverLCP ns m = Ok m'.
Proof.
  intro H. revert m. induction H as [|[c entries] ns Hne _ IH]; intro m; cbn [deliverLCP].
  - now exists m.
  - unfold measureLCP_callback.
    unfold nonEmpty in Hne. cbn [snd] in Hne.
    destruct (exists_last Hne) as (l & x & ->).
    rewrite nth_error_last. cbn [bind]. apply IH.
Qed.

(** C6.  After any sequence of LCP notifications the reported LCP is the
    [startTime] of the entry delivered last, that is of the last entry of
    the latest list: it is the value of [metrics.coreWebVitals.lcp], rated
    by [rateLCP], and the value of the sample accepted last. *)
Theorem lcp_reports_latest_entry
        (earlier : list (Ctx * list LcpEntry.t)) (c : Ctx)
        (batch : list LcpEntry.t) (lastEntry : LcpEntry.t) (m : Monitor) :
  Forall nonEmpty earlier ->
  exists m' v,
    deliverLCP (earlier ++ [(c, batch ++ [lastEntry])]) m = Ok m'
    /\ lcp (vitals m') = Some v
    /\ Vital.value v = Num (LcpEntry.startTime lastEntry)
    /\ Vital.rating v = rateLCP (LcpEntry.startTime lastEntry)
    /\ exists before,
         recorded m' = before ++ [ {| Sample.name := "lcp";
                                      Sample.data := VitalData v;
                                      Sample.timestamp := now c |} ].
Proof.
  intro Hne.
  destruct (deliverLCP_total earlier m Hne) as [m1 H1].
  rewrite deliverLCP_app, H1. cbn [bind deliverLCP].
  unfold measureLCP_callback. rewrite nth_error_last. cbn [bind].
  eexists. eexists. split; [reflexivity|].
  unfold vitals. rewrite reportMetric_metrics.
  destruct (log_fields "LCP" (set_lcp {| Vital.value := Num (LcpEntry.startTime lastEntry);
                                        Vital.rating := rateLCP (LcpEntry.startTime lastEntry);
                                        Vital.timestamp := now c;
                                        Vital.detail := Element (LcpEntry.element lastEntry) |}
                                     m1)) as (Hm & _).
  rewrite Hm. cbn.
  split; [reflexivity|]. split; [reflexivity|]. split; [reflexivity|].
  eexists. rewrite reportMetric_recorded. reflexivity.
Qed.

Lemma lcp_reports_latest_entry_witness :
  Forall nonEmpty lcpEarlier
  /\ exists m' v,
       deliverLCP (lcpEarlier ++ [(ctxNoBeacon, [lcpEntry 2400 4%N] ++ [lcpEntry 2600 5%N])])
                  (newPerformanceMonitor defaultOptions) = Ok m'
       /\ lcp (vitals m') = Some v
       /\ Vital.value v = Num 2600.
Proof.
  assert (H : Forall nonEmpty lcpEarlier)
    by (repeat constructor; discriminate).
  split; [exact H|].
  destruct (lcp_reports_latest_entry lcpEarlier ctxNoBeacon [lcpEntry 2400 4%N]
              (lcpEntry 2600 5%N) (newPerformanceMonitor defaultOptions) H)
    as (m' & v & Hrun & Hlcp & Hval & _).
  exists m', v. exact (conj Hrun (conj Hlcp Hval)).
Defined.

(** ** Sorting by the comparator *)

Lemma insert_perm (x : Q) (l : list Q) : Permutation (insert x l) (x :: l).
Proof.
  induction l as [|y l IH]; cbn [insert].
  - apply Permutation_refl.
  - destruct (Qltb (compareFn y x) 0).
    + apply perm_trans with (y :: x :: l).
      * apply perm_skip, IH.
      * apply perm_swap.
    + apply Permutation_refl.
Qed.

Lemma sort_perm (l : list Q) : Permutation (sort l) l.
Proof.
  induction l as [|x l IH]; cbn [sort].
  - apply perm_nil.
  - apply perm_trans with (x :: sort l).
    + apply insert_perm.
    + apply perm_skip, IH.
Qed.

Lemma sort_length (l : list Q) : length (sort l) = length l.
Proof. apply Permutation_length, sort_perm. Qed.

Lemma insert_sorted (x : Q) (l : list Q) :
  StronglySorted Qle l -> StronglySorted Qle (insert x l).
Proof.
  induction l as [|y l IH]; intro H; cbn [insert].
  - repeat constructor.
  - apply StronglySorted_inv in H. destruct H as [Hs Hy].
    unfold compareFn. destruct (Qltb (y - x) 0) eqn:E.
    + apply Qltb_iff in E. constructor.
      * apply IH, Hs.
      * apply (Permutation_Forall (Permutation_sym (insert_perm x l))).
        constructor; [lra | exact Hy].
    + apply Qltb_false_iff in E. constructor.
      * constructor; assumption.
      * constructor; [lra|].
        eapply Forall_impl; [|exact Hy]. cbn. intros a Ha. lra.
Qed.

Lemma sort_sorted (l : list Q) : StronglySorted Qle (sort l).
Proof.
  induction l as [|x l IH]; cbn [sort].
  - constructor.
  - apply insert_sorted, IH.
Qed.

(** The last element of a sorted list bounds the list. *)
Lemma sorted_last_max (l : list Q) (x : Q) :
  StronglySorted Qle l ->
  nth_error l (length l - 1) = Some x ->
  Forall (fun y => y <= x) l.
Proof.
  induction l as [|a l IH]; intros Hs Hn.
  - constructor.
  - apply StronglySorted_inv in Hs. destruct Hs as [Hs Ha].
    destruct l as [|b l].
    + cbn in Hn. injection Hn as <-. repeat constructor. lra.
    + cbn [length] in Hn.
      replace (S (S (length l)) - 1)%nat with (S (length (b :: l) - 1)) in Hn
        by (cbn [length]; lia).
      cbn [nth_error] in Hn.
      constructor.
      * rewrite Forall_forall in Ha. apply Ha. eapply nth_error_In, Hn.
      * apply IH; assumption.
Qed.

(** ** The percentile index *)

Lemma Qfloor_unique (x : Q) (z : Z) :
  inject_Z z <= x -> x < inject_Z (z + 1) -> Qfloor x = z.
Proof.
  intros Hlo Hhi.
  pose proof (Qfloor_le x) as H1. pose proof (Qlt_floor x) as H2.
  assert (Ha : inject_Z z < inject_Z (Qfloor x + 1)) by lra.
  assert (Hb : inject_Z (Qfloor x) < inject_Z (z + 1)) by lra.
  rewrite <- Zlt_Qlt in Ha, Hb. lia.
Qed.

Lemma percentileIndex_pred (n : nat) :
  (1 <= n <= 50)%nat -> percentileIndex n = (n - 1)%nat.
Proof.
  intros [Hlo Hhi]. unfold percentileIndex.
  assert (H1 : 1 <= inject_Z (Z.of_nat n))
    by (change 1 with (inject_Z 1); rewrite <- Zle_Qle; lia).
  assert (H50 : inject_Z (Z.of_nat n) <= 50)
    by (change 50 with (inject_Z 50); rewrite <- Zle_Qle; lia).
  rewrite (Qfloor_unique _ (Z.of_nat n - 1)).
  - lia.
  - unfold Z.sub. rewrite inject_Z_plus. change (inject_Z (- (1))) with (- (1)). lra.
  - replace (Z.of_nat n - 1 + 1)%Z with (Z.of_nat n) by lia. lra.
Qed.

Lemma percentileIndex_lt (n : nat) : (1 <= n)%nat -> (percentileIndex n < n)%nat.
Proof.
  intro Hlo. unfold percentileIndex.
  set (x := inject_Z (Z.of_nat n) * 0.98).
  assert (H1 : 1 <= inject_Z (Z.of_nat n))
    by (change 1 with (inject_Z 1); rewrite <- Zle_Qle; lia).
  pose proof (Qfloor_le x) as Hf.
  assert (Hlt : inject_Z (Qfloor x) < inject_Z (Z.of_nat n)) by (subst x; lra).
  rewrite <- Zlt_Qlt in Hlt. lia.
Qed.

(** The exact index agrees with the binary64 computation of the code on
    every size the window can have. *)
Lemma percentileIndex_binary64 :
  forallb floorIsPredecessor [1; 2; 3; 4; 5; 6; 7; 8; 9; 10]%float = true.
Proof.
  vm_compute. reflexivity.
Qed.

(** ** Interaction to Next Paint *)

Lemma slice_last_short {A : Type} (k : nat) (l : list A) :
  (length l <= k)%nat -> slice_last k l = l.
Proof.
  intro H. unfold slice_last.
  replace (length l - k)%nat with 0%nat by lia. reflexivity.
Qed.

Lemma slice_last_length {A : Type} (k : nat) (l : list A) :
  length (slice_last k l) = Nat.min k (length l).
Proof.
  unfold slice_last. rewrite length_skipn. lia.
Qed.


(** The eviction keeps the last ten, whether or not the test fires. *)
Lemma evict_slice_last {A : Type} (pushed : list A) :
  (if (10 <? length pushed)%nat then slice_last 10 pushed else pushed)
  = slice_last 10 pushed.
Proof.
  destruct (Nat.ltb_spec 10 (length pushed)) as [H|H].
  - reflexivity.
  - symmetry. apply slice_last_short, H.
Qed.

Lemma measureINP_entry_accept (c : Ctx) (w : list Interaction.t) (m : Monitor)
      (entry : EventEntry.t) :
  EventEntry.interactionId entry <> 0%N ->
  measureINP_entry c (w, m) entry =
  (slice_last 10 (w ++ [interactionOf entry]),
   reportMetric c "inp"
     (VitalData (inpVital c (slice_last 10 (w ++ [interactionOf entry]))))
     (log "INP" (set_inp (inpVital c (slice_last 10 (w ++ [interactionOf entry]))) m))).
Proof.
  intro H. unfold measureINP_entry.
  destruct (N.eqb_spec (EventEntry.interactionId entry) 0) as [E|_]; [contradiction|].
  cbn [negb]. fold (interactionOf entry). now rewrite evict_slice_last.
Qed.

Lemma measureINP_entry_skip (c : Ctx) (st : list Interaction.t * Monitor)
      (entry : EventEntry.t) :
  EventEntry.interactionId entry = 0%N -> measureINP_entry c st entry = st.
Proof.
  intro H. unfold measureINP_entry. destruct st as [w m].
  rewrite H. reflexivity.
Qed.

Lemma inp_after_report (c : Ctx) (v : Vital.t) (m : Monitor) :
  inp (vitals (reportMetric c "inp" (VitalData v) (log "INP" (set_inp v m)))) = Some v.
Proof.
  unfold vitals. rewrite reportMetric_metrics.
  destruct (log_fields "INP" (set_inp v m)) as (Hm & _). now rewrite Hm.
Qed.


Lemma interactionsOf_app (l1 l2 : list EventEntry.t) :
  interactionsOf (l1 ++ l2) = interactionsOf l1 ++ interactionsOf l2.
Proof.
  unfold interactionsOf. now rewrite filter_app, map_app.
Qed.


(** A window of one to ten interactions has a 98th-percentile element. *)
Lemma inpOf_defined (w : list Interaction.t) :
  (1 <= length w)%nat ->
  exists x, inpOf w = Some x
            /\ nth_error (sortedLatencies w)
                         (percentileIndex (length (sortedLatencies w))) = Some x.
Proof.
  intro H. unfold inpOf.
  destruct (nth_error (sortedLatencies w)
                      (percentileIndex (length (sortedLatencies w)))) as [x|] eqn:E.
  - now exists x.
  - apply nth_error_None in E.
    assert (Hlen : length (sortedLatencies w) = length w)
      by (unfold sortedLatencies; now rewrite sort_length, length_map).
    pose proof (percentileIndex_lt (length (sortedLatencies w))). lia.
Qed.



(** C10.  For a window of [n] interactions with [1 <= n <= 10] the index
    [floor(n * 0.98)] is [n - 1].  So the INP reported when an interaction
    is pushed is the largest latency of the window: one of its latencies,
    and no smaller than any of them. *)
Theorem inp_is_window_maximum :
  (forall n : nat, (1 <= n <= 10)%nat -> percentileIndex n = (n - 1)%nat)
  /\ forall (c : Ctx) (interactions : list Interaction.t) (m : Monitor)
            (entry : EventEntry.t),
       EventEntry.interactionId entry <> 0%N ->
       (1 <= length (fst (measureINP_entry c (interactions, m) entry)) <= 10)%nat
       /\ exists v x,
            inp (vitals (snd (measureINP_entry c (interactions, m) entry))) = Some v
            /\ Vital.value v = Num x
            /\ In x (map Interaction.latency
                         (fst (measureINP_entry c (interactions, m) entry)))
            /\ Forall (fun y => y <= x)
                      (map Interaction.latency
                           (fst (measureINP_entry c (interactions, m) entry))).
Proof.
  split.
  - intros n Hn. apply percentileIndex_pred. lia.
  - intros c interactions m entry Hid.
    rewrite measureINP_entry_accept by exact Hid. cbn [fst snd].
    set (w := slice_last 10 (interactions ++ [interactionOf entry])).
    assert (Hlen : (1 <= length w <= 10)%nat).
    { subst w. rewrite slice_last_length, length_app. cbn [length]. lia. }
    split; [exact Hlen|].
    destruct (inpOf_defined w (proj1 Hlen)) as (x & Hx & Hnth).
    assert (Hsl : length (sortedLatencies w) = length w)
      by (unfold sortedLatencies; now rewrite sort_length, length_map).
    rewrite Hsl, percentileIndex_pred, <- Hsl in Hnth by lia.
    exists (inpVital c w), x.
    split; [apply inp_after_report|].
    split; [unfold inpVital; rewrite Hx; reflexivity|].
    split.
    + apply (Permutation_in x (sort_perm (map Interaction.latency w))).
      eapply nth_error_In, Hnth.
    + apply (Permutation_Forall (sort_perm (map Interaction.latency w))).
      apply sorted_last_max; [apply sort_sorted | exact Hnth].
Qed.

Lemma inp_is_window_maximum_witness :
  ((1 <= 10 <= 10)%nat /\ percentileIndex 10 = 9%nat)
  /\ EventEntry.interactionId (eventEntry 12 96 120) <> 0%N
  /\ exists v x,
       inp (vitals (snd (measureINP_entry ctxBeacon
                           (map interactionOf [eventEntry 1 120 10; eventEntry 2 40 20],
                            newPerformanceMonitor defaultOptions)
                           (eventEntry 12 96 120)))) = Some v
       /\ Vital.value v = Num x
       /\ Forall (fun y => y <= x)
                 (map Interaction.latency
                      (fst (measureINP_entry ctxBeacon
                              (map interactionOf [eventEntry 1 120 10; eventEntry 2 40 20],
                               newPerformanceMonitor defaultOptions)
                              (eventEntry 12 96 120)))).
Proof.
  assert (H : (1 <= 10 <= 10)%nat) by lia.
  assert (Hid : EventEntry.interactionId (eventEntry 12 96 120) <> 0%N) by discriminate.
  split; [exact (conj H (proj1 inp_is_window_maximum 10%nat H))|].
  split; [exact Hid|].
  destruct (proj2 inp_is_window_maximum ctxBeacon
              (map interactionOf [eventEntry 1 120 10; eventEntry 2 40 20])
              (newPerformanceMonitor defaultOptions) (eventEntry 12 96 120) Hid)
    as (_ & v & x & Hinp & Hval & _ & Hmax).
  exists v, x. exact (conj Hinp (conj Hval Hmax)).
Defined.

(** ** Cumulative Layout Shift *)

Lemma sameSession_spec (s : ClsState) (entry : LayoutShift.t) :
  clsWellFormed s ->
  exists same, sameSession s entry = Ok same
               /\ (same = false <-> newSession s entry).
Proof.
  intro Hwf. unfold sameSession, newSession.
  destruct (truthy (sessionValue s)) eqn:Et.
  - assert (Hnz : ~ sessionValue s == 0) by now apply truthy_iff.
    specialize (Hwf Et).
    destruct (exists_last Hwf) as (init & l & Hl). rewrite Hl, nth_error_last.
    assert (Hf : exists f, nth_error (init ++ [l]) 0 = Some f)
      by (destruct init; cbn; eauto).
    destruct Hf as [f Hf]. rewrite Hf.
    eexists. split; [reflexivity|].
    rewrite andb_false_iff, !Qltb_false_iff.
    split.
    + intros [H|H]; [right; left; eauto | right; right; eauto].
    + intros [H|[(l' & E & H)|(f' & E & H)]].
      * contradiction.
      * injection E as <-. now left.
      * injection E as <-. now right.
  - exists false. split; [reflexivity|]. split; [|reflexivity].
    intros _. left.
    destruct (Qeq_dec (sessionValue s) 0) as [E|E]; [exact E|].
    apply truthy_iff in E. congruence.
Qed.

Lemma cls_after_report (c : Ctx) (v : Vital.t) (m : Monitor) :
  cls (vitals (reportMetric c "cls" (VitalData v) (log "CLS" (set_cls v m)))) = Some v.
Proof.
  unfold vitals. rewrite reportMetric_metrics.
  destruct (log_fields "CLS" (set_cls v m)) as (Hm & _). now rewrite Hm.
Qed.

Lemma sessionSum_push (entries : list LayoutShift.t) (entry : LayoutShift.t) :
  entries <> [] ->
  sessionSum (entries ++ [entry]) = sessionSum entries + LayoutShift.value entry.
Proof.
  destruct entries as [|first rest]; [congruence|]. intros _.
  cbn [sessionSum app]. now rewrite fold_left_app.
Qed.

(** One entry: the law of the session window and of the running maximum. *)
Lemma measureCLS_entry_law (c : Ctx) (m0 : Monitor) (s : ClsState) (m : Monitor)
      (entry : LayoutShift.t) :
  clsInvariant m0 s m ->
  LayoutShift.hadRecentInput entry = false ->
  exists s' m',
    measureCLS_entry c (s, m) entry = Ok (s', m')
    /\ clsInvariant m0 s' m'
    /\ (newSession s entry ->
        sessionEntries s' = [entry] /\ sessionValue s' = LayoutShift.value entry)
    /\ (~ newSession s entry ->
        sessionEntries s' = sessionEntries s ++ [entry]
        /\ sessionValue s' = sessionValue s + LayoutShift.value entry)
    /\ clsValue s <= clsValue s'
    /\ (clsValue s' = clsValue s \/ clsValue s' = sessionValue s').
Proof.
  intros (Hwf & Hle & Hrep & Hsum) Hin.
  destruct (sameSession_spec s entry Hwf) as (same & Hsame & Hiff).
  unfold measureCLS_entry. rewrite Hin, Hsame. cbn [negb bind].
  set (s1 := if same
             then {| clsValue := clsValue s;
                     sessionValue := sessionValue s + LayoutShift.value entry;
                     sessionEntries := sessionEntries s ++ [entry] |}
             else {| clsValue := clsValue s;
                     sessionValue := LayoutShift.value entry;
                     sessionEntries := [entry] |}).
  assert (Hcls1 : clsValue s1 = clsValue s) by (subst s1; destruct same; reflexivity).
  assert (Hne1 : sessionEntries s1 <> []).
  { subst s1; destruct same; cbn; [|discriminate].
    destruct (sessionEntries s); discriminate. }
  assert (Hnew : newSession s entry ->
                 sessionEntries s1 = [entry] /\ sessionValue s1 = LayoutShift.value entry).
  { intro H. apply Hiff in H. subst s1. rewrite H. split; reflexivity. }
  assert (Hold : ~ newSession s entry ->
                 sessionEntries s1 = sessionEntries s ++ [entry]
                 /\ sessionValue s1 = sessionValue s + LayoutShift.value entry).
  { intro H. destruct same; [subst s1; split; reflexivity|].
    exfalso. apply H, Hiff. reflexivity. }
  assert (Hsum1 : sessionValue s1 = sessionSum (sessionEntries s1)).
  { subst s1. destruct same; cbn [sessionValue sessionEntries]; [|reflexivity].
    rewrite sessionSum_push, Hsum; [reflexivity|].
    apply Hwf, truthy_iff. intro Hz.
    assert (Hf : true = false) by (apply Hiff; left; exact Hz). discriminate Hf. }
  clearbody s1.
  destruct (Qltb (clsValue s1) (sessionValue s1)) eqn:E.
  - apply Qltb_iff in E. rewrite Hcls1 in E.
    eexists. eexists. split; [reflexivity|]. cbn [clsValue sessionValue sessionEntries].
    split; [|split; [exact Hnew | split; [exact Hold | split; [lra | now right]]]].
    split; [intros _; exact Hne1|]. split; [apply Qle_refl|].
    split; [|exact Hsum1].
    right. eexists. split; [apply cls_after_report|]. split; reflexivity.
  - apply Qltb_false_iff in E.
    exists s1, m. split; [reflexivity|].
    split; [|split; [exact Hnew | split; [exact Hold
                                         | split; [rewrite Hcls1; lra | now left]]]].
    split; [intros _; exact Hne1|]. split; [exact E|].
    split; [|exact Hsum1].
    unfold clsReported. rewrite Hcls1. exact Hrep.
Qed.

Lemma measureCLS_entry_ignored (c : Ctx) (st : ClsState * Monitor) (entry : LayoutShift.t) :
  LayoutShift.hadRecentInput entry = true -> measureCLS_entry c st entry = Ok st.
Proof.
  intro H. unfold measureCLS_entry. destruct st as [s m]. rewrite H. reflexivity.
Qed.

Lemma measureCLS_entry_step (c : Ctx) (m0 : Monitor) (s : ClsState) (m : Monitor)
      (entry : LayoutShift.t) :
  clsInvariant m0 s m ->
  exists s' m',
    measureCLS_entry c (s, m) entry = Ok (s', m')
    /\ clsInvariant m0 s' m'
    /\ clsValue s <= clsValue s'
    /\ (clsValue s' = clsValue s \/ clsValue s' = sessionValue s').
Proof.
  intro Hinv. destruct (LayoutShift.hadRecentInput entry) eqn:Hin.
  - exists s, m. rewrite measureCLS_entry_ignored by exact Hin.
    repeat split; try apply Hinv; try lra. now left.
  - destruct (measureCLS_entry_law c m0 s m entry Hinv Hin)
      as (s' & m' & H1 & H2 & _ & _ & H3 & H4).
    exists s', m'. auto.
Qed.

Lemma runCLS_app (ev1 ev2 : list (Ctx * LayoutShift.t)) (st : ClsState * Monitor) :
  runCLS (ev1 ++ ev2) st = bind (runCLS ev1 st) (runCLS ev2).
Proof.
  revert st. induction ev1 as [|[c entry] ev1 IH]; intro st; cbn [app runCLS].
  - reflexivity.
  - destruct (measureCLS_entry c st entry) as [st1|exn]; cbn [bind].
    + apply IH.
    + reflexivity.
Qed.

(** A run from a well-formed state does not raise, keeps the invariant and
    never lowers the CLS. *)
Lemma runCLS_invariant (events : list (Ctx * LayoutShift.t)) (m0 : Monitor)
      (s : ClsState) (m : Monitor) :
  clsInvariant m0 s m ->
  exists s' m',
    runCLS events (s, m) = Ok (s', m')
    /\ clsInvariant m0 s' m'
    /\ clsValue s <= clsValue s'.
Proof.
  revert s m. induction events as [|[c entry] events IH]; intros s m Hinv; cbn [runCLS].
  - exists s, m. repeat split; try apply Hinv. lra.
  - destruct (measureCLS_entry_step c m0 s m entry Hinv) as (s1 & m1 & H1 & Hinv1 & Hle1 & _).
    rewrite H1. cbn [bind].
    destruct (IH s1 m1 Hinv1) as (s' & m' & H2 & Hinv2 & Hle2).
    exists s', m'. repeat split; try apply Hinv2; try assumption. lra.
Qed.

Lemma clsInit_invariant (m : Monitor) : clsInvariant m clsInit m.
Proof.
  split; [|split; [|split]].
  - intro H. discriminate H.
  - cbn. lra.
  - left. split; reflexivity.
  - reflexivity.
Qed.


Lemma deliverCLS_runCLS (notifications : list (Ctx * list LayoutShift.t))
      (st : ClsState * Monitor) :
  deliverCLS notifications st = runCLS (eventsOf notifications) st.
Proof.
  revert st. induction notifications as [|[c entries] ns IH]; intro st.
  - reflexivity.
  - unfold eventsOf. cbn [map concat fst snd deliverCLS]. fold (eventsOf ns).
    rewrite runCLS_app.
    assert (H : forall st', measureCLS_callback c entries st'
                            = runCLS (map (pair c) entries) st').
    { induction entries as [|e entries IHe]; intro st'; cbn.
      - reflexivity.
      - destruct (measureCLS_entry c st' e); cbn [bind]; [apply IHe | reflexivity]. }
    rewrite H. destruct (runCLS (map (pair c) entries) st); cbn [bind].
    + apply IH.
    + reflexivity.
Qed.

(** The accumulator of the counterexample is the one the first shift leaves. *)
Lemma sessionOfShiftAt0_reached :
  exists m',
    runCLS [(ctxBeacon, shiftAt0)] (clsInit, newPerformanceMonitor defaultOptions)
    = Ok (sessionOfShiftAt0, m').
Proof.
  eexists. vm_compute. reflexivity.
Qed.




(** ** Resource classifier *)

Lemma Qfloor_lt_iff (y : Q) (z : Z) : (Qfloor y < z)%Z <-> y < inject_Z z.
Proof.
  pose proof (Qfloor_le y) as H1. pose proof (Qlt_floor y) as H2.
  split; intro H.
  - assert (Hz : inject_Z (Qfloor y + 1) <= inject_Z z) by (rewrite <- Zle_Qle; lia).
    lra.
  - rewrite Zlt_Qlt. lra.
Qed.

(** Rounded to one decimal, a percentage is below 50 exactly when it is
    below 49.95. *)
Lemma toFixed_1_lt_50 (x : Q) : toFixed 1 x < 50 <-> x < 49.95.
Proof.
  unfold toFixed. change (inject_Z (10 ^ Z.of_nat 1)) with 10.
  unfold Qdiv. change (/ 10) with (1 # 10).
  set (n := Qfloor (Qabs x * 10 + (1 # 2))).
  destruct (Qltb x 0) eqn:E.
  - apply Qltb_iff in E.
    assert (Hn : (0 <= n)%Z).
    { change 0%Z with (Qfloor 0). apply Qfloor_resp_le.
      pose proof (Qabs_nonneg x). lra. }
    rewrite Zle_Qle in Hn. change (inject_Z 0) with 0 in Hn.
    split; intros _; lra.
  - apply Qltb_false_iff in E.
    assert (Hx : Qabs x == x) by now apply Qabs_pos.
    assert (Hn : (n < 500)%Z <-> x * 10 + (1 # 2) < 500).
    { subst n. rewrite Qfloor_lt_iff. change (inject_Z 500) with 500.
      rewrite Hx. reflexivity. }
    rewrite Zlt_Qlt in Hn. change (inject_Z 500) with 500 in Hn.
    split; intro H.
    + assert (H' : inject_Z n < 500) by lra. apply Hn in H'. lra.
    + assert (H' : x * 10 + (1 # 2) < 500) by lra. apply Hn in H'. lra.
Qed.






(** * Further properties *)

(** ** The buffer under all its callers *)

Lemma print_fields (msg : ConsoleMsg) (m : Monitor) :
  buffer (print msg m) = buffer m /\ network (print msg m) = network m
  /\ options (print msg m) = options m /\ metrics (print msg m) = metrics m
  /\ observer (print msg m) = observer m /\ reportTimer (print msg m) = reportTimer m.
Proof. repeat split. Qed.

Lemma sendReport_recorded (c : Ctx) (immediate : bool) (m : Monitor) :
  recorded (sendReport c immediate m) = recorded m.
Proof.
  unfold recorded. destruct (buffer m) as [|s b] eqn:E.
  - rewrite sendReport_empty by exact E. now rewrite E.
  - destruct (sendReport_nonempty c immediate m) as (Hb & _ & _ & _ & _ & Hn & _);
      [congruence|].
    rewrite Hb, Hn, map_app, concat_app, app_nil_r. cbn [map concat].
    rewrite app_nil_r.
    replace (Report.metrics (body (requestOf c immediate m))) with (buffer m)
      by (unfold requestOf; destruct (immediate && sendBeacon c); reflexivity).
    now rewrite E.
Qed.

Lemma sendReport_options (c : Ctx) (immediate : bool) (m : Monitor) :
  options (sendReport c immediate m) = options m.
Proof.
  destruct (buffer m) as [|s b] eqn:E.
  - now rewrite sendReport_empty.
  - apply sendReport_nonempty. congruence.
Qed.

Lemma destroy_recorded (c : Ctx) (m : Monitor) : recorded (destroy c m) = recorded m.
Proof.
  destruct (destroy_unfold c m) as (m' & E & Hb & _ & Hn & _).
  rewrite E, sendReport_recorded. unfold recorded. now rewrite Hb, Hn.
Qed.

Lemma destroy_options (c : Ctx) (m : Monitor) : options (destroy c m) = options m.
Proof.
  destruct (destroy_unfold c m) as (m' & E & _ & Ho & _).
  now rewrite E, sendReport_options.
Qed.

Lemma trackError_recorded (c : Ctx) (errorData : Handle) (m : Monitor) :
  recorded (trackError c errorData m)
  = recorded m ++ [sampleOf (c, "error", OtherData errorData)].
Proof.
  unfold trackError.
  destruct (debugMode (options (reportMetric c "error" (OtherData errorData) m)));
    apply reportMetric_recorded.
Qed.

Lemma runOps_app (ops1 ops2 : list Op) (m : Monitor) :
  runOps (ops1 ++ ops2) m = runOps ops2 (runOps ops1 m).
Proof. apply fold_left_app. Qed.

(** X1.  Whatever the order of samples, timer ticks, page unloads, tracked
    errors and teardown, the samples handed to the transport followed by
    those still buffered are the samples accepted before, followed by the
    samples of the [reportMetric] and [trackError] calls in call order:
    inside the monitor no sample is lost, sent twice or reordered. *)
Theorem samples_are_conserved (ops : list Op) (m : Monitor) :
  recorded (runOps ops m) = recorded m ++ samplesOf ops.
Proof.
  revert m. induction ops as [|op ops IH]; intro m.
  - cbn. now rewrite app_nil_r.
  - change (runOps (op :: ops) m) with (runOps ops (runOp m op)).
    rewrite IH. unfold samplesOf. cbn [flat_map]. fold (samplesOf ops).
    rewrite app_assoc. f_equal.
    destruct op as [c name data|c errorData|c|c|c]; cbn [runOp].
    + apply reportMetric_recorded.
    + apply trackError_recorded.
    + rewrite app_nil_r. destruct (reportTimer m) as [[|]|];
        [apply sendReport_recorded | reflexivity | reflexivity].
    + rewrite app_nil_r. apply sendReport_recorded.
    + rewrite app_nil_r. apply destroy_recorded.
Qed.

Lemma set_observer_same (m : Monitor) :
  observer m = Some false -> set_observer (Some false) m = m.
Proof. destruct m. cbn. now intros ->. Qed.

Lemma set_reportTimer_same (m : Monitor) :
  reportTimer m = Some false -> set_reportTimer (Some false) m = m.
Proof. destruct m. cbn. now intros ->. Qed.

Lemma sendReport_flags (c : Ctx) (immediate : bool) (m : Monitor) :
  observer (sendReport c immediate m) = observer m
  /\ reportTimer (sendReport c immediate m) = reportTimer m.
Proof.
  destruct (buffer m) as [|s b] eqn:E.
  - rewrite sendReport_empty by exact E. now split.
  - destruct (sendReport_nonempty c immediate m) as (_ & _ & _ & Ho & Ht & _);
      [congruence|]. now split.
Qed.

(** X2.  A flush that follows a flush does nothing, whatever the two
    transports are: the report of the [beforeunload] listener is not sent a
    second time by [destroy()], and a second [destroy()] changes nothing. *)
Theorem flush_twice_sends_once (c1 c2 : Ctx) (i1 i2 : bool) (m : Monitor) :
  sendReport c2 i2 (sendReport c1 i1 m) = sendReport c1 i1 m
  /\ network (destroy c2 (sendReport c1 i1 m)) = network (sendReport c1 i1 m)
  /\ destroy c2 (destroy c1 m) = destroy c1 m.
Proof.
  split; [apply sendReport_empty, sendReport_buffer|].
  split.
  - destruct (destroy_unfold c2 (sendReport c1 i1 m)) as (m' & E & Hb & _ & Hn & _).
    rewrite E, sendReport_empty; [exact Hn|].
    rewrite Hb. apply sendReport_buffer.
  - destruct (destroy_unfold c1 m) as (m' & E & _ & _ & _ & _ & Ho & Ht).
    destruct (sendReport_flags c1 true m') as [Ho' Ht'].
    assert (Hobs : observer (destroy c1 m) = option_map (fun _ => false) (observer m))
      by (rewrite E; congruence).
    assert (Htim : reportTimer (destroy c1 m) = option_map (fun _ => false) (reportTimer m))
      by (rewrite E; congruence).
    assert (Hbuf : buffer (destroy c1 m) = []) by apply destroy_buffer.
    clear E Ho Ht Ho' Ht' m'.
    set (d := destroy c1 m) in *.
    unfold destroy.
    destruct (observer d) as [o|] eqn:Eo.
    + assert (o = false) by (destruct (observer m); cbn in Hobs; congruence). subst o.
      rewrite set_observer_same by exact Eo.
      destruct (reportTimer d) as [t|] eqn:Et.
      * assert (t = false) by (destruct (reportTimer m); cbn in Htim; congruence). subst t.
        rewrite set_reportTimer_same by exact Et. now apply sendReport_empty.
      * now apply sendReport_empty.
    + destruct (reportTimer d) as [t|] eqn:Et.
      * assert (t = false) by (destruct (reportTimer m); cbn in Htim; congruence). subst t.
        rewrite set_reportTimer_same by exact Et. now apply sendReport_empty.
      * now apply sendReport_empty.
Qed.

Lemma sendReport_sent (c : Ctx) (immediate : bool) (m : Monitor) :
  exists sent,
    network (sendReport c immediate m) = network m ++ sent
    /\ Forall (fun r => reportSize r = length (buffer m) /\ (1 <= reportSize r)%nat) sent.
Proof.
  destruct (buffer m) as [|s b] eqn:E.
  - exists []. rewrite sendReport_empty by exact E. now rewrite app_nil_r.
  - destruct (sendReport_nonempty c immediate m) as (_ & _ & _ & _ & _ & Hn & _);
      [congruence|].
    exists [requestOf c immediate m]. split; [exact Hn|].
    constructor; [|constructor].
    unfold reportSize, requestOf.
    destruct (immediate && sendBeacon c); cbn; rewrite E; cbn; split; (reflexivity || lia).
Qed.

(** The invariant of the buffer: it holds fewer than [bufferSize] samples. *)
Lemma runOp_bounded (op : Op) (m : Monitor) :
  (Z.of_nat (length (buffer m)) < bufferSize (options m))%Z ->
  options (runOp m op) = options m
  /\ (Z.of_nat (length (buffer (runOp m op))) < bufferSize (options m))%Z
  /\ exists sent,
       network (runOp m op) = network m ++ sent
       /\ Forall (fun r => (1 <= reportSize r)%nat
                           /\ (Z.of_nat (reportSize r) <= bufferSize (options m))%Z) sent.
Proof.
  intro Hlt.
  assert (Hreport : forall c name data,
             options (reportMetric c name data m) = options m
             /\ (Z.of_nat (length (buffer (reportMetric c name data m)))
                 < bufferSize (options m))%Z
             /\ exists sent,
                  network (reportMetric c name data m) = network m ++ sent
                  /\ Forall (fun r => (1 <= reportSize r)%nat
                                      /\ (Z.of_nat (reportSize r)
                                          <= bufferSize (options m))%Z) sent).
  { intros c name data. split; [apply reportMetric_options|].
    split; [apply reportMetric_bounded; lia|].
    destruct (Z.lt_ge_cases (Z.of_nat (length (buffer m) + 1)) (bufferSize (options m)))
      as [H|H].
    - exists []. rewrite reportMetric_keep by exact H. cbn. now rewrite app_nil_r.
    - destruct (reportMetric_flush_fields c name data m H) as (_ & r & Hn & _ & Hr).
      exists [r]. split; [exact Hn|]. constructor; [|constructor].
      unfold reportSize. rewrite Hr, length_app. cbn [length]. lia. }
  assert (Hflush : forall c i,
             options (sendReport c i m) = options m
             /\ (Z.of_nat (length (buffer (sendReport c i m))) < bufferSize (options m))%Z
             /\ exists sent,
                  network (sendReport c i m) = network m ++ sent
                  /\ Forall (fun r => (1 <= reportSize r)%nat
                                      /\ (Z.of_nat (reportSize r)
                                          <= bufferSize (options m))%Z) sent).
  { intros c i. split; [apply sendReport_options|].
    split; [rewrite sendReport_buffer; cbn; lia|].
    destruct (sendReport_sent c i m) as (sent & Hn & Hs). exists sent.
    split; [exact Hn|]. eapply Forall_impl; [|exact Hs].
    cbn. intros r [H1 H2]. split; [exact H2 | lia]. }
  destruct op as [c name data|c errorData|c|c|c]; cbn [runOp].
  - apply Hreport.
  - unfold trackError.
    destruct (debugMode (options (reportMetric c "error" (OtherData errorData) m)));
      apply Hreport.
  - destruct (reportTimer m) as [[|]|]; [apply Hflush | |];
      (split; [reflexivity|]; split; [exact Hlt|]; exists []; now rewrite app_nil_r).
  - apply Hflush.
  - destruct (destroy_unfold c m) as (m' & E & Hb & Ho & Hn & _).
    split; [apply destroy_options|].
    split; [rewrite destroy_buffer; cbn; lia|].
    destruct (sendReport_sent c true m') as (sent & Hn' & Hs). exists sent.
    rewrite E, Hn', Hn. split; [reflexivity|].
    eapply Forall_impl; [|exact Hs].
    cbn. intros r [H1 H2]. rewrite Hb in H1. split; [exact H2 | lia].
Qed.

(** X3.  From a monitor whose buffer is below [bufferSize], any sequence of
    samples, tracked errors, timer ticks, page unloads and teardowns keeps
    the buffer below [bufferSize], leaves the options as they were, and
    sends only reports that carry at least one sample and at most
    [bufferSize]. *)
Theorem reports_are_bounded (ops : list Op) (m : Monitor) :
  (Z.of_nat (length (buffer m)) < bufferSize (options m))%Z ->
  options (runOps ops m) = options m
  /\ (Z.of_nat (length (buffer (runOps ops m))) < bufferSize (options m))%Z
  /\ exists sent,
       network (runOps ops m) = network m ++ sent
       /\ Forall (fun r => (1 <= reportSize r)%nat
                           /\ (Z.of_nat (reportSize r) <= bufferSize (options m))%Z) sent.
Proof.
  revert m. induction ops as [|op ops IH]; intros m Hlt.
  - cbn. split; [reflexivity|]. split; [exact Hlt|]. exists []. now rewrite app_nil_r.
  - change (runOps (op :: ops) m) with (runOps ops (runOp m op)).
    destruct (runOp_bounded op m Hlt) as (Ho & Hb & sent1 & Hn1 & Hs1).
    destruct (IH (runOp m op)) as (Ho' & Hb' & sent2 & Hn2 & Hs2);
      [rewrite Ho; exact Hb|].
    rewrite Ho in Ho', Hb', Hs2.
    split; [exact Ho'|]. split; [exact Hb'|].
    exists (sent1 ++ sent2). rewrite Hn2, Hn1, app_assoc. split; [reflexivity|].
    apply Forall_app. now split.
Qed.

Lemma reports_are_bounded_witness :
  (Z.of_nat (length (buffer (newPerformanceMonitor smallOptions)))
   < bufferSize (options (newPerformanceMonitor smallOptions)))%Z
  /\ (Z.of_nat (length (buffer (runOps someOps (newPerformanceMonitor smallOptions))))
      < bufferSize (options (newPerformanceMonitor smallOptions)))%Z.
Proof.
  assert (H : (Z.of_nat (length (buffer (newPerformanceMonitor smallOptions)))
               < bufferSize (options (newPerformanceMonitor smallOptions)))%Z)
    by reflexivity.
  split; [exact H|].
  exact (proj1 (proj2 (reports_are_bounded someOps (newPerformanceMonitor smallOptions) H))).
Defined.

(** X4.  With a [bufferSize] of 1 or less, zero and negative sizes included,
    nothing is ever held back: every [reportMetric] call sends at once, by
    [fetch], a report that carries what was buffered and the new sample, and
    leaves the buffer empty. *)
Theorem small_bufferSize_sends_at_once
        (c : Ctx) (name : string) (data : MetricData) (m : Monitor) :
  (bufferSize (options m) <= 1)%Z ->
  buffer (reportMetric c name data m) = []
  /\ network (reportMetric c name data m)
     = network m ++ [Fetch (reportingEndpoint (options m))
                           {| Report.url := href c;
                              Report.userAgent := navigatorUserAgent c;
                              Report.timestamp := now c;
                              Report.metrics := buffer m ++ [sampleOf (c, name, data)];
                              Report.summary := getSummary m |}].
Proof.
  intro H.
  assert (Hfull : (bufferSize (options m) <= Z.of_nat (length (buffer m) + 1))%Z) by lia.
  rewrite (reportMetric_flush _ _ _ _ Hfull).
  set (m1 := set_buffer (buffer m ++ [sampleOf (c, name, data)]) m).
  assert (Hne : buffer m1 <> []) by (cbn; destruct (buffer m); discriminate).
  destruct (sendReport_nonempty c false m1 Hne) as (Hb & _ & _ & _ & _ & Hn & _).
  split; [exact Hb|]. rewrite Hn. reflexivity.
Qed.

Lemma small_bufferSize_sends_at_once_witness :
  (bufferSize (options
     (newPerformanceMonitor {| reportingEndpoint := "/api/performance";
                               bufferSize := 0%Z; reportInterval := 30000%Z;
                               debugMode := false |})) <= 1)%Z
  /\ buffer (reportMetric ctxBeacon "alert" (OtherData 1%N)
               (newPerformanceMonitor {| reportingEndpoint := "/api/performance";
                                         bufferSize := 0%Z; reportInterval := 30000%Z;
                                         debugMode := false |})) = [].
Proof.
  assert (H : (bufferSize (options
     (newPerformanceMonitor {| reportingEndpoint := "/api/performance";
                               bufferSize := 0%Z; reportInterval := 30000%Z;
                               debugMode := false |})) <= 1)%Z) by (cbn; lia).
  split; [exact H|].
  exact (proj1 (small_bufferSize_sends_at_once ctxBeacon "alert" (OtherData 1%N) _ H)).
Defined.

(** ** Debug mode *)

Lemma quiet_compose (f g : Monitor -> Monitor) :
  quiet f -> quiet g -> quiet (fun m => g (f m)).
Proof.
  intros Hf Hg m Hd. destruct (Hf m Hd) as [Hc Ho].
  destruct (Hg (f m)) as [Hc' Ho']; [congruence|].
  split; congruence.
Qed.

Lemma quiet_log (label : string) : quiet (log label).
Proof.
  intros m Hd. unfold log. rewrite Hd. now split.
Qed.

Lemma quiet_sendReport (c : Ctx) (immediate : bool) : quiet (sendReport c immediate).
Proof.
  intros m Hd. split; [|apply sendReport_options].
  destruct (buffer m) as [|s b] eqn:E.
  - now rewrite sendReport_empty.
  - destruct (sendReport_nonempty c immediate m) as (_ & _ & _ & _ & _ & _ & Hc);
      [congruence|].
    rewrite Hc. unfold printedBy. rewrite Hd, andb_false_r. cbn. now rewrite app_nil_r.
Qed.

Lemma quiet_reportMetric (c : Ctx) (name : string) (data : MetricData) :
  quiet (reportMetric c name data).
Proof.
  intros m Hd. split; [|apply reportMetric_options].
  destruct (Z.lt_ge_cases (Z.of_nat (length (buffer m) + 1)) (bufferSize (options m)))
    as [H|H].
  - rewrite reportMetric_keep by exact H. reflexivity.
  - rewrite reportMetric_flush by exact H.
    apply (quiet_sendReport c false (set_buffer _ m)). exact Hd.
Qed.

Lemma quiet_set_coreWebVitals (v : Monitor -> CoreWebVitals) :
  quiet (fun m => set_coreWebVitals (v m) m).
Proof. intros m Hd. now split. Qed.

Lemma quiet_destroy (c : Ctx) : quiet (destroy c).
Proof.
  intros m Hd. unfold destroy.
  destruct (observer m); cbn [reportTimer set_observer]; destruct (reportTimer m).
  all: match goal with
       | |- console (sendReport _ _ ?x) = _ /\ _ =>
           destruct (quiet_sendReport c true x Hd) as [Hc Ho];
           split; [exact Hc | exact Ho]
       end.
Qed.

Lemma quiet_runOp (op : Op) : quiet (fun m => runOp m op).
Proof.
  destruct op as [c name data|c errorData|c|c|c]; cbn [runOp].
  - apply quiet_reportMetric.
  - intros m Hd. unfold trackError.
    destruct (quiet_reportMetric c "error" (OtherData errorData) m Hd) as [Hc Ho].
    rewrite Ho, Hd. now split.
  - intros m Hd. destruct (reportTimer m) as [[|]|];
      [now apply quiet_sendReport | now split | now split].
  - apply quiet_sendReport.
  - apply quiet_destroy.
Qed.

Lemma quiet_runOps (ops : list Op) : quiet (runOps ops).
Proof.
  induction ops as [|op ops IH].
  - intros m Hd. now split.
  - change (runOps (op :: ops)) with (fun m => runOps ops (runOp m op)).
    apply (quiet_compose (fun m => runOp m op) (runOps ops)); [apply quiet_runOp | exact IH].
Qed.

Lemma quiet_measureINP_entry (c : Ctx) (w : list Interaction.t) (entry : EventEntry.t) :
  quiet (fun m => snd (measureINP_entry c (w, m) entry)).
Proof.
  intros m Hd.
  destruct (N.eq_dec (EventEntry.interactionId entry) 0) as [E|E].
  - rewrite measureINP_entry_skip by exact E. now split.
  - rewrite measureINP_entry_accept by exact E. cbn [snd].
    set (v := inpVital c _).
    apply (quiet_compose (fun m => log "INP" (set_inp v m))
                         (reportMetric c "inp" (VitalData v))); [|apply quiet_reportMetric|exact Hd].
    apply (quiet_compose (set_inp v) (log "INP")); [|apply quiet_log].
    intros m0 H0. now split.
Qed.

Lemma quiet_measureINP_callback (c : Ctx) (entries : list EventEntry.t)
      (w : list Interaction.t) :
  quiet (fun m => snd (measureINP_callback c entries (w, m))).
Proof.
  unfold measureINP_callback. revert w.
  induction entries as [|entry entries IH]; intros w m Hd; cbn [fold_left].
  - now split.
  - destruct (quiet_measureINP_entry c w entry m Hd) as [Hc Ho].
    destruct (measureINP_entry c (w, m) entry) as [w1 m1] eqn:E. cbn [snd] in Hc, Ho.
    destruct (IH w1 m1) as [Hc' Ho']; [congruence|]. split; congruence.
Qed.

Lemma quiet_measureCLS_entry (c : Ctx) (s s' : ClsState) (m m' : Monitor)
      (entry : LayoutShift.t) :
  debugMode (options m) = false ->
  measureCLS_entry c (s, m) entry = Ok (s', m') ->
  console m' = console m /\ options m' = options m.
Proof.
  intros Hd. unfold measureCLS_entry.
  destruct (LayoutShift.hadRecentInput entry); cbn [negb];
    [intro E; injection E as _ <-; now split|].
  - destruct (sameSession s entry) as [same|exn]; cbn [bind]; [|discriminate].
    match goal with |- context [Qltb ?a ?b] => destruct (Qltb a b) end.
    + intro E. injection E as _ <-.
      match goal with
      | |- context [reportMetric c "cls" (VitalData ?v) _] =>
          apply (quiet_compose (fun m => log "CLS" (set_cls v m))
                               (reportMetric c "cls" (VitalData v)));
          [apply (quiet_compose (set_cls v) (log "CLS"));
           [intros m0 H0; now split | apply quiet_log]
          | apply quiet_reportMetric | exact Hd]
      end.
    + intro E. injection E as _ <-. now split.
Qed.

Lemma quiet_measureCLS_callback (c : Ctx) (entries : list LayoutShift.t)
      (s s' : ClsState) (m m' : Monitor) :
  debugMode (options m) = false ->
  measureCLS_callback c entries (s, m) = Ok (s', m') ->
  console m' = console m /\ options m' = options m.
Proof.
  revert s m. induction entries as [|entry entries IH]; intros s m Hd; cbn [measureCLS_callback].
  - intro E. injection E as _ <-. now split.
  - destruct (measureCLS_entry c (s, m) entry) as [[s1 m1]|exn] eqn:E1; cbn [bind];
      [|discriminate].
    intro E. destruct (quiet_measureCLS_entry c s s1 m m1 entry Hd E1) as [Hc Ho].
    destruct (IH s1 m1) as [Hc' Ho']; [congruence | exact E |]. split; congruence.
Qed.

(** X5.  With debug mode off the monitor prints nothing, whatever happens:
    not for samples, tracked errors, timer ticks, unloads or teardown, even
    when every [fetch] is rejected, and not in the callbacks of the LCP, INP
    and CLS observers nor in the resource classifier. *)
Theorem silent_without_debugMode (m : Monitor) :
  debugMode (options m) = false ->
  (forall ops, console (runOps ops m) = console m)
  /\ (forall c entries m',
         measureLCP_callback c entries m = Ok m' -> console m' = console m)
  /\ (forall c entries w,
         console (snd (measureINP_callback c entries (w, m))) = console m)
  /\ (forall c entries s s' m',
         measureCLS_callback c entries (s, m) = Ok (s', m') -> console m' = console m)
  /\ (forall c entry, console (analyzeResourcePerformance c entry m) = console m).
Proof.
  intro Hd. repeat apply conj.
  - intro ops. apply quiet_runOps, Hd.
  - intros c entries m'. unfold measureLCP_callback.
    destruct (nth_error entries (length entries - 1)) as [e|]; [|discriminate].
    intro E. injection E as <-.
    match goal with
    | |- context [reportMetric c "lcp" (VitalData ?v) _] =>
        apply (quiet_compose (fun m => log "LCP" (set_lcp v m))
                             (reportMetric c "lcp" (VitalData v)));
        [apply (quiet_compose (set_lcp v) (log "LCP"));
         [intros m0 H0; now split | apply quiet_log]
        | apply quiet_reportMetric | exact Hd]
    end.
  - intros c entries w. apply quiet_measureINP_callback, Hd.
  - intros c entries s s' m' E. eapply quiet_measureCLS_callback; eassumption.
  - intros c entry. unfold analyzeResourcePerformance.
    destruct (0 <? length (issuesOf entry))%nat; [|reflexivity].
    apply quiet_reportMetric, Hd.
Qed.

Lemma silent_without_debugMode_witness :
  debugMode (options (newPerformanceMonitor defaultOptions)) = false
  /\ console (runOps someOps (newPerformanceMonitor defaultOptions)) = [].
Proof.
  assert (H : debugMode (options (newPerformanceMonitor defaultOptions)) = false)
    by reflexivity.
  split; [exact H|].
  exact (proj1 (silent_without_debugMode (newPerformanceMonitor defaultOptions) H) someOps).
Defined.

(** ** The observers, entry by entry *)

(** X6.  The LCP callback raises [TypeError] on an empty list, before it
    touches the monitor.  On any other list it looks at the last entry
    only: the entries before it change nothing, and the notification
    records one sample however many entries it has. *)
Theorem lcp_callback_reads_last_entry
        (c : Ctx) (batch : list LcpEntry.t) (lastEntry : LcpEntry.t) (m : Monitor) :
  measureLCP_callback c [] m = Throw "TypeError"
  /\ measureLCP_callback c (batch ++ [lastEntry]) m = measureLCP_callback c [lastEntry] m
  /\ exists m',
       measureLCP_callback c (batch ++ [lastEntry]) m = Ok m'
       /\ length (recorded m') = S (length (recorded m)).
Proof.
  split; [reflexivity|].
  unfold measureLCP_callback. rewrite nth_error_last. cbn [length Nat.sub nth_error].
  split; [reflexivity|].
  eexists. split; [reflexivity|].
  rewrite reportMetric_recorded, log_recorded, length_app. cbn [length].
  unfold recorded, set_lcp. cbn. lia.
Qed.

Lemma interactionsOf_nil_inv (entry : EventEntry.t) (entries : list EventEntry.t) :
  interactionsOf (entry :: entries) = [] ->
  EventEntry.interactionId entry = 0%N /\ interactionsOf entries = [].
Proof.
  unfold interactionsOf. cbn [filter].
  destruct (N.eqb_spec (EventEntry.interactionId entry) 0) as [E|E]; cbn [negb map].
  - intro H. now split.
  - discriminate.
Qed.

Lemma measureINP_entry_recorded (c : Ctx) (w : list Interaction.t) (m : Monitor)
      (entry : EventEntry.t) :
  length (recorded (snd (measureINP_entry c (w, m) entry)))
  = (length (recorded m) + length (interactionsOf [entry]))%nat.
Proof.
  unfold interactionsOf. cbn [filter].
  destruct (N.eqb_spec (EventEntry.interactionId entry) 0) as [E|E]; cbn [negb map length].
  - rewrite measureINP_entry_skip by exact E. cbn [snd]. lia.
  - rewrite measureINP_entry_accept by exact E. cbn [snd].
    rewrite reportMetric_recorded, log_recorded, length_app. cbn [length].
    unfold recorded, set_inp. cbn. lia.
Qed.

(** X7.  Event entries without an interaction identifier are ignored: a
    notification made of them changes neither the window nor the monitor.
    In general a notification records one INP sample for each of its
    entries that has an identifier, and none for the others. *)
Theorem inp_records_one_sample_per_interaction
        (c : Ctx) (entries : list EventEntry.t) (w : list Interaction.t) (m : Monitor) :
  (interactionsOf entries = [] -> measureINP_callback c entries (w, m) = (w, m))
  /\ length (recorded (snd (measureINP_callback c entries (w, m))))
     = (length (recorded m) + length (interactionsOf entries))%nat.
Proof.
  unfold measureINP_callback. revert w m.
  induction entries as [|entry entries IH]; intros w m; cbn [fold_left].
  - split; [reflexivity|]. cbn. lia.
  - pose proof (measureINP_entry_recorded c w m entry) as Hstep.
    destruct (measureINP_entry c (w, m) entry) as [w1 m1] eqn:E. cbn [snd] in Hstep.
    destruct (IH w1 m1) as [Hnil Hlen]. split.
    + intro H. apply interactionsOf_nil_inv in H. destruct H as [Hid Hrest].
      rewrite measureINP_entry_skip in E by exact Hid. injection E as <- <-.
      apply Hnil, Hrest.
    + rewrite Hlen, Hstep.
      change (entry :: entries) with ([entry] ++ entries).
      rewrite interactionsOf_app, length_app. lia.
Qed.

Lemma inp_records_one_sample_per_interaction_witness :
  interactionsOf [eventEntry 0 900 25; eventEntry 0 16 30] = []
  /\ measureINP_callback ctxBeacon [eventEntry 0 900 25; eventEntry 0 16 30]
       ([interactionOf (eventEntry 1 120 10)], newPerformanceMonitor defaultOptions)
     = ([interactionOf (eventEntry 1 120 10)], newPerformanceMonitor defaultOptions).
Proof.
  assert (H : interactionsOf [eventEntry 0 900 25; eventEntry 0 16 30] = [])
    by reflexivity.
  split; [exact H|].
  exact (proj1 (inp_records_one_sample_per_interaction ctxBeacon
                  [eventEntry 0 900 25; eventEntry 0 16 30]
                  [interactionOf (eventEntry 1 120 10)]
                  (newPerformanceMonitor defaultOptions)) H).
Defined.

Lemma measureCLS_entry_sample (c : Ctx) (s s' : ClsState) (m m' : Monitor)
      (entry : LayoutShift.t) :
  measureCLS_entry c (s, m) entry = Ok (s', m') ->
  (m' = m /\ clsValue s' = clsValue s)
  \/ (clsValue s < clsValue s'
      /\ exists sample,
           recorded m' = recorded m ++ [sample]
           /\ Sample.name sample = "cls"
           /\ sampleValue sample = clsValue s').
Proof.
  unfold measureCLS_entry.
  destruct (LayoutShift.hadRecentInput entry); cbn [negb];
    [intro E; injection E as <- <-; now left|].
  destruct (sameSession s entry) as [same|exn]; cbn [bind]; [|discriminate].
  match goal with |- context [Qltb ?a ?b] => destruct (Qltb a b) eqn:Elt end.
  - intro E. injection E as <- <-. right. apply Qltb_iff in Elt.
    split; [destruct same; exact Elt|].
    eexists. split; [|split].
    + rewrite reportMetric_recorded, log_recorded.
      unfold recorded, set_cls. cbn. reflexivity.
    + reflexivity.
    + reflexivity.
  - intro E. injection E as <- <-. left. split; [reflexivity|]. now destruct same.
Qed.

Lemma last_cons_default {A : Type} (l : list A) (a d : A) :
  last (a :: l) d = last l a.
Proof.
  revert a d. induction l as [|b l IH]; intros a d.
  - reflexivity.
  - change (last (a :: b :: l) d) with (last (b :: l) d). now rewrite !IH.
Qed.

Lemma runCLS_samples (events : list (Ctx * LayoutShift.t)) (s s' : ClsState)
      (m m' : Monitor) :
  runCLS events (s, m) = Ok (s', m') ->
  exists samples,
    recorded m' = recorded m ++ samples
    /\ Forall (fun sample => Sample.name sample = "cls") samples
    /\ StronglySorted Qlt (clsValue s :: map sampleValue samples)
    /\ last (map sampleValue samples) (clsValue s) = clsValue s'.
Proof.
  revert s m. induction events as [|[c entry] events IH]; intros s m; cbn [runCLS].
  - intro E. injection E as <- <-. exists []. rewrite app_nil_r.
    repeat split; repeat constructor.
  - destruct (measureCLS_entry c (s, m) entry) as [[s1 m1]|exn] eqn:E1; cbn [bind];
      [|discriminate].
    intro E. destruct (IH s1 m1 E) as (samples & Hrec & Hname & Hsorted & Hlast).
    destruct (measureCLS_entry_sample c s s1 m m1 entry E1)
      as [[-> Hcls]|(Hlt & sample & Hrec1 & Hname1 & Hval1)].
    + exists samples. rewrite <- Hcls. auto.
    + exists (sample :: samples).
      rewrite Hrec, Hrec1, <- app_assoc. split; [reflexivity|].
      split; [constructor; assumption|].
      cbn [map]. rewrite Hval1. split.
      * constructor; [exact Hsorted|].
        apply StronglySorted_inv in Hsorted. destruct Hsorted as [_ Hall].
        constructor; [exact Hlt|].
        eapply Forall_impl; [|exact Hall]. cbn. intros a Ha. lra.
      * rewrite <- Hlast. apply last_cons_default.
Qed.

(** X8.  A CLS sample is recorded exactly when the CLS grows: over any
    notifications the observer adds only samples named [cls], their values
    increase strictly from one to the next, the first is above the initial
    0, and the last is the current CLS. *)
Theorem cls_samples_increase
        (notifications : list (Ctx * list LayoutShift.t)) (m : Monitor) :
  exists s' m' samples,
    deliverCLS notifications (clsInit, m) = Ok (s', m')
    /\ recorded m' = recorded m ++ samples
    /\ Forall (fun sample => Sample.name sample = "cls") samples
    /\ StronglySorted Qlt (0 :: map sampleValue samples)
    /\ last (map sampleValue samples) 0 = clsValue s'.
Proof.
  destruct (runCLS_invariant (eventsOf notifications) m clsInit m (clsInit_invariant m))
    as (s' & m' & Hrun & _).
  destruct (runCLS_samples _ _ _ _ _ Hrun) as (samples & H).
  exists s', m', samples. rewrite deliverCLS_runCLS. split; [exact Hrun | exact H].
Qed.




(** ** Ratings *)

Lemma neverImproves_of_thresholds (rate : Q -> string) (t1 t2 : Q) :
  t1 <= t2 ->
  (forall v, rate v = if Qle_bool v t1 then "good"
                      else if Qle_bool v t2 then "needs-improvement" else "poor") ->
  neverImproves rate.
Proof.
  intros Ht Hrate v w Hvw. rewrite !Hrate.
  destruct (Qle_bool v t1) eqn:V1; [cbn; lia|].
  apply Qle_bool_false_iff in V1.
  assert (W1 : Qle_bool w t1 = false) by (apply Qle_bool_false_iff; lra).
  rewrite W1.
  destruct (Qle_bool v t2) eqn:V2; [destruct (Qle_bool w t2); cbn; lia|].
  apply Qle_bool_false_iff in V2.
  assert (W2 : Qle_bool w t2 = false) by (apply Qle_bool_false_iff; lra).
  rewrite W2. cbn. lia.
Qed.

(** X10.  No rating function answers better for a larger value: from
    "good" the answer can only move to "needs-improvement" and from there
    to "poor" as the metric grows. *)
Theorem ratings_never_improve :
  neverImproves rateLCP /\ neverImproves rateFID /\ neverImproves rateINP
  /\ neverImproves rateCLS /\ neverImproves rateFCP /\ neverImproves rateTTI.
Proof.
  repeat apply conj;
    (eapply neverImproves_of_thresholds; [|intro v; reflexivity]; discriminate).
Qed.

Lemma ratings_never_improve_witness :
  2500 <= 4000.5
  /\ (ratingRank (rateLCP 2500) <= ratingRank (rateLCP 4000.5))%nat.
Proof.
  assert (H : 2500 <= 4000.5) by discriminate.
  split; [exact H|].
  exact (proj1 ratings_never_improve 2500 4000.5 H).
Defined.

(** ** Resources *)

Lemma endsWithAny_app (l1 l2 : list string) (url : string) :
  endsWithAny (l1 ++ l2) url = endsWithAny l1 url || endsWithAny l2 url.
Proof. apply existsb_app. Qed.

Lemma endsWithAny_In (suffix : string) (l : list string) (url : string) :
  In suffix l -> endsWith suffix url = true -> endsWithAny l url = true.
Proof.
  intros Hin He. apply existsb_exists. exists suffix. now split.
Qed.

(** X11.  [getResourceType] answers one of its seven types.  The extension
    comes before the path: the answer is "api" only for a URL that ends in
    none of the known extensions.  And every URL the classifier can flag
    [not_cached] is a stylesheet, a script, an image or a font. *)
Theorem resource_type_by_extension (url : string) :
  In (getResourceType url)
     ["stylesheet"; "script"; "image"; "font"; "video"; "api"; "other"]
  /\ (getResourceType url = "api" ->
      endsWithAny knownExtensions url = false
      /\ (includes url "/api/" = true \/ includes url "wp-json" = true))
  /\ (endsWithAny cacheableExtensions url = true ->
      In (getResourceType url) ["stylesheet"; "script"; "image"; "font"]).
Proof.
  unfold getResourceType.
  change knownExtensions
    with ([".css"] ++ [".js"]
          ++ [".png"; ".jpg"; ".jpeg"; ".gif"; ".webp"; ".avif"; ".svg"]
          ++ [".woff"; ".woff2"; ".ttf"; ".eot"] ++ [".mp4"; ".webm"; ".ogg"]).
  rewrite !endsWithAny_app.
  repeat apply conj.
  - destruct (endsWithAny [".css"] url); [cbn; tauto|].
    destruct (endsWithAny [".js"] url); [cbn; tauto|].
    destruct (endsWithAny _ url); [cbn; tauto|].
    destruct (endsWithAny _ url); [cbn; tauto|].
    destruct (endsWithAny _ url); [cbn; tauto|].
    destruct (includes url "/api/" || includes url "wp-json"); cbn; tauto.
  - destruct (endsWithAny [".css"] url); [discriminate|].
    destruct (endsWithAny [".js"] url); [discriminate|].
    destruct (endsWithAny _ url); [discriminate|].
    destruct (endsWithAny _ url); [discriminate|].
    destruct (endsWithAny _ url); [discriminate|].
    destruct (includes url "/api/"), (includes url "wp-json"); cbn;
      intro H; try discriminate H; split; auto.
  - intro H. apply existsb_exists in H. destruct H as (suffix & Hin & He).
    assert (Hsome : endsWithAny [".css"] url = true
                    \/ endsWithAny [".js"] url = true
                    \/ endsWithAny [".png"; ".jpg"; ".jpeg"; ".gif"; ".webp"; ".avif"; ".svg"]
                                   url = true
                    \/ endsWithAny [".woff"; ".woff2"; ".ttf"; ".eot"] url = true).
    { cbn [cacheableExtensions In] in Hin.
      destruct Hin as [<-|[<-|[<-|[<-|[<-|[<-|[<-|[]]]]]]]].
      - left. apply (endsWithAny_In ".css"); [cbn; tauto | exact He].
      - right. left. apply (endsWithAny_In ".js"); [cbn; tauto | exact He].
      - right. right. right. apply (endsWithAny_In ".woff"); [cbn; tauto | exact He].
      - right. right. right. apply (endsWithAny_In ".woff2"); [cbn; tauto | exact He].
      - right. right. left. apply (endsWithAny_In ".png"); [cbn; tauto | exact He].
      - right. right. left. apply (endsWithAny_In ".jpg"); [cbn; tauto | exact He].
      - right. right. left. apply (endsWithAny_In ".jpeg"); [cbn; tauto | exact He]. }
    destruct (endsWithAny [".css"] url); [cbn; tauto|].
    destruct (endsWithAny [".js"] url); [cbn; tauto|].
    destruct (endsWithAny [".png"; ".jpg"; ".jpeg"; ".gif"; ".webp"; ".avif"; ".svg"] url);
      [cbn; tauto|].
    destruct (endsWithAny [".woff"; ".woff2"; ".ttf"; ".eot"] url); [cbn; tauto|].
    destruct Hsome as [H|[H|[H|H]]]; discriminate H.
Qed.

Lemma resource_type_by_extension_witness :
  endsWithAny cacheableExtensions "/api/v2/bundle.js" = true
  /\ In (getResourceType "/api/v2/bundle.js") ["stylesheet"; "script"; "image"; "font"].
Proof.
  assert (H : endsWithAny cacheableExtensions "/api/v2/bundle.js" = true) by reflexivity.
  split; [exact H|].
  exact (proj2 (proj2 (resource_type_by_extension "/api/v2/bundle.js")) H).
Defined.

(** X12.  A cache hit (zero transfer size, decoded size above zero) is never
    flagged [poor_compression] nor [not_cached]: the only issue it can have
    is [slow_loading], and when it has none nothing is reported. *)
Theorem cache_hit_is_only_ever_slow (entry : ResourceEntry.t) :
  Analysis.cached (analysisOf entry) = true ->
  (issuesOf entry = [] \/ issuesOf entry = ["slow_loading"])
  /\ (ResourceEntry.responseEnd entry - ResourceEntry.startTime entry <= 3000 ->
      forall c m, analyzeResourcePerformance c entry m = m).
Proof.
  intro Hc.
  assert (Hsize : ResourceEntry.transferSize entry = 0%N).
  { cbn [analysisOf Analysis.cached] in Hc. apply andb_true_iff in Hc.
    destruct Hc as [H _]. now apply N.eqb_eq in H. }
  assert (Hissues : issuesOf entry
                    = if Qltb 3000 (ResourceEntry.responseEnd entry
                                    - ResourceEntry.startTime entry)
                      then ["slow_loading"] else []).
  { unfold issuesOf. rewrite Hc.
    cbn [analysisOf Analysis.size Analysis.duration negb andb].
    rewrite Hsize. cbn [N.ltb N.compare andb].
    destruct (Qltb 3000 _); reflexivity. }
  split.
  - rewrite Hissues. destruct (Qltb 3000 _); auto.
  - intros Hd c m. unfold analyzeResourcePerformance. rewrite Hissues.
    apply Qltb_false_iff in Hd. rewrite Hd. reflexivity.
Qed.

Lemma cache_hit_is_only_ever_slow_witness :
  Analysis.cached (analysisOf (resourceEntry "/assets/logo.png" 10 12 0 4096 4096)) = true
  /\ (issuesOf (resourceEntry "/assets/logo.png" 10 12 0 4096 4096) = []
      \/ issuesOf (resourceEntry "/assets/logo.png" 10 12 0 4096 4096) = ["slow_loading"]).
Proof.
  assert (H : Analysis.cached
                (analysisOf (resourceEntry "/assets/logo.png" 10 12 0 4096 4096)) = true)
    by reflexivity.
  split; [exact H|].
  exact (proj1 (cache_hit_is_only_ever_slow
                  (resourceEntry "/assets/logo.png" 10 12 0 4096 4096) H)).
Defined.

Lemma toFixed_1_error (x : Q) : Qabs (toFixed 1 x - x) <= 0.05.
Proof.
  unfold toFixed. change (inject_Z (10 ^ Z.of_nat 1)) with 10.
  unfold Qdiv. change (/ 10) with (1 # 10).
  pose proof (Qfloor_le (Qabs x * 10 + (1 # 2))) as Hlo.
  pose proof (Qlt_floor (Qabs x * 10 + (1 # 2))) as Hhi.
  rewrite inject_Z_plus in Hhi. change (inject_Z 1) with 1 in Hhi.
  set (n := inject_Z (Qfloor (Qabs x * 10 + (1 # 2)))) in *.
  apply Qabs_Qle_condition.
  destruct (Qltb x 0) eqn:E.
  - apply Qltb_iff in E.
    assert (Ha : Qabs x == - x) by (apply Qabs_neg; lra).
    rewrite Ha in Hlo, Hhi. split; lra.
  - apply Qltb_false_iff in E.
    assert (Ha : Qabs x == x) by now apply Qabs_pos.
    rewrite Ha in Hlo, Hhi. split; lra.
Qed.

Lemma toFixed_1_le_100 (x : Q) : x <= 100 -> toFixed 1 x <= 100.
Proof.
  intro Hx. unfold toFixed. change (inject_Z (10 ^ Z.of_nat 1)) with 10.
  unfold Qdiv. change (/ 10) with (1 # 10).
  assert (Hn : (0 <= Qfloor (Qabs x * 10 + (1 # 2)))%Z).
  { change 0%Z with (Qfloor 0). apply Qfloor_resp_le.
    pose proof (Qabs_nonneg x). lra. }
  rewrite Zle_Qle in Hn. change (inject_Z 0) with 0 in Hn.
  destruct (Qltb x 0) eqn:E.
  - lra.
  - apply Qltb_false_iff in E.
    assert (Ha : Qabs x == x) by now apply Qabs_pos.
    assert (Hf : (Qfloor (Qabs x * 10 + (1 # 2)) <= Qfloor (1000 + (1 # 2)))%Z)
      by (apply Qfloor_resp_le; rewrite Ha; lra).
    change (Qfloor (1000 + (1 # 2))) with 1000%Z in Hf.
    rewrite Zle_Qle in Hf. change (inject_Z 1000) with 1000 in Hf. lra.
Qed.

Lemma sizeQ_pos (n : N) : (0 < n)%N -> 0 < sizeQ n.
Proof.
  intro H. unfold sizeQ. change 0 with (inject_Z 0). rewrite <- Zlt_Qlt. lia.
Qed.

Lemma sizeQ_nonneg (n : N) : 0 <= sizeQ n.
Proof.
  unfold sizeQ. change 0 with (inject_Z 0). rewrite <- Zle_Qle. lia.
Qed.

(** X13.  For an entry with an encoded and a decoded body, the compression
    figure of the analysis is a number: it differs from the exact percentage
    [(decoded - encoded) / decoded * 100] by 0.05 at most, and it never
    exceeds 100. *)
Theorem compression_is_the_rounded_percentage (entry : ResourceEntry.t) :
  (0 < ResourceEntry.encodedBodySize entry)%N ->
  (0 < ResourceEntry.decodedBodySize entry)%N ->
  exists q,
    Analysis.compression (analysisOf entry) = Finite q
    /\ Qabs (q - compressionRatio entry) <= 0.05
    /\ q <= 100.
Proof.
  intros He Hd. cbn [analysisOf Analysis.compression]. unfold compressionOf.
  destruct (N.ltb_spec 0 (ResourceEntry.encodedBodySize entry)) as [_|H]; [|lia].
  destruct (N.eqb_spec (ResourceEntry.decodedBodySize entry) 0) as [H|_]; [lia|].
  eexists. split; [reflexivity|]. fold (compressionRatio entry).
  split; [apply toFixed_1_error|].
  apply toFixed_1_le_100. unfold compressionRatio.
  pose proof (sizeQ_pos _ Hd) as Hdq.
  pose proof (sizeQ_nonneg (ResourceEntry.encodedBodySize entry)) as Heq.
  assert (Hdiv : (sizeQ (ResourceEntry.decodedBodySize entry)
                  - sizeQ (ResourceEntry.encodedBodySize entry))
                 / sizeQ (ResourceEntry.decodedBodySize entry) <= 1)
    by (apply Qle_shift_div_r; [exact Hdq | lra]).
  lra.
Qed.

Lemma compression_is_the_rounded_percentage_witness :
  (0 < ResourceEntry.encodedBodySize
         (resourceEntry "/assets/app.js" 200 3201 5120 5000 20000))%N
  /\ (0 < ResourceEntry.decodedBodySize
             (resourceEntry "/assets/app.js" 200 3201 5120 5000 20000))%N
  /\ exists q,
       Analysis.compression
         (analysisOf (resourceEntry "/assets/app.js" 200 3201 5120 5000 20000)) = Finite q
       /\ q <= 100.
Proof.
  assert (H1 : (0 < ResourceEntry.encodedBodySize
                      (resourceEntry "/assets/app.js" 200 3201 5120 5000 20000))%N)
    by reflexivity.
  assert (H2 : (0 < ResourceEntry.decodedBodySize
                      (resourceEntry "/assets/app.js" 200 3201 5120 5000 20000))%N)
    by reflexivity.
  split; [exact H1|]. split; [exact H2|].
  destruct (compression_is_the_rounded_percentage
              (resourceEntry "/assets/app.js" 200 3201 5120 5000 20000) H1 H2)
    as (q & Hq & _ & Hle).
  exists q. exact (conj Hq Hle).
Defined.

(** ** CSS helpers *)

Lemma countMatches_append (class : ascii -> bool) (s1 s2 : string) :
  countMatches class (s1 ++ s2)%string
  = (countMatches class s1 + countMatches class s2)%nat.
Proof.
  induction s1 as [|a s1 IH]; cbn [String.append countMatches].
  - reflexivity.
  - rewrite IH. lia.
Qed.

Lemma classes_are_not_letters (s : string) :
  (countMatches (Ascii.eqb ".") s + countMatches (Ascii.eqb "#") s
   + countMatches isLetter s <= String.length s)%nat.
Proof.
  induction s as [|a s IH]; cbn [countMatches String.length].
  - lia.
  - assert (H : ((if Ascii.eqb "." a then 1 else 0) + (if Ascii.eqb "#" a then 1 else 0)
                 + (if isLetter a then 1 else 0) <= 1)%nat).
    { destruct (Ascii.eqb_spec "."%char a) as [<-|_]; [vm_compute; lia|].
      destruct (Ascii.eqb_spec "#"%char a) as [<-|_]; [vm_compute; lia|].
      destruct (isLetter a); lia. }
    lia.
Qed.

(** X14.  [calculateSpecificity] adds up over concatenation, so the score
    of a compound selector is the sum of the scores of its parts.  Every
    [#] weighs 100, every [.] weighs 9 (10, less the 1 taken from the
    element count) and every letter 1, those of class and id names
    included: the score is never negative, and at most 100 times the length
    of the selector. *)
Theorem specificity_is_additive (s1 s2 : string) :
  calculateSpecificity (s1 ++ s2)%string
  = (calculateSpecificity s1 + calculateSpecificity s2)%Z
  /\ calculateSpecificity s1
     = (100 * Z.of_nat (countMatches (Ascii.eqb "#") s1)
        + 9 * Z.of_nat (countMatches (Ascii.eqb ".") s1)
        + Z.of_nat (countMatches isLetter s1))%Z
  /\ (0 <= calculateSpecificity s1 <= 100 * Z.of_nat (String.length s1))%Z.
Proof.
  unfold calculateSpecificity. rewrite !countMatches_append.
  pose proof (classes_are_not_letters s1).
  repeat split; lia.
Qed.

(** X15.  [isCriticalMediaQuery] answers "not critical" exactly for a media
    text that contains [print]; its tests for [max-width], [min-width] and
    [prefers-reduced-motion] never change the answer, and the empty text is
    critical. *)
Theorem media_query_is_critical_unless_print (mediaText : string) :
  isCriticalMediaQuery mediaText = negb (includes mediaText "print").
Proof.
  unfold isCriticalMediaQuery.
  destruct (String.eqb_spec mediaText "") as [->|_]; [reflexivity|].
  destruct (includes mediaText "print"); cbn [negb]; [reflexivity|].
  destruct (includes mediaText "max-width" || includes mediaText "min-width");
    [reflexivity|].
  destruct (includes mediaText "prefers-reduced-motion"); reflexivity.
Qed.

(** ** A vital that fills the buffer *)

(** X16.  When the sample of an LCP notification fills the buffer, the
    report that leaves at once is up to date: it carries the buffered
    samples followed by the new LCP sample, and its summary already shows
    that LCP. *)
Theorem lcp_that_fills_the_buffer_is_in_the_summary
        (c : Ctx) (batch : list LcpEntry.t) (lastEntry : LcpEntry.t) (m : Monitor) :
  (bufferSize (options m) <= Z.of_nat (length (buffer m) + 1))%Z ->
  exists m' v report,
    measureLCP_callback c (batch ++ [lastEntry]) m = Ok m'
    /\ Vital.value v = Num (LcpEntry.startTime lastEntry)
    /\ buffer m' = []
    /\ network m' = network m ++ [Fetch (reportingEndpoint (options m)) report]
    /\ Report.metrics report
       = buffer m ++ [ {| Sample.name := "lcp"; Sample.data := VitalData v;
                          Sample.timestamp := now c |} ]
    /\ lcp (summaryCoreWebVitals (Report.summary report)) = Some v.
Proof.
  intro Hfull. unfold measureLCP_callback. rewrite nth_error_last.
  set (v := {| Vital.value := Num (LcpEntry.startTime lastEntry);
               Vital.rating := rateLCP (LcpEntry.startTime lastEntry);
               Vital.timestamp := now c;
               Vital.detail := Element (LcpEntry.element lastEntry) |}).
  set (m1 := log "LCP" (set_lcp v m)).
  destruct (log_fields "LCP" (set_lcp v m)) as (Hm & Hb & Ho & Hn).
  fold m1 in Hm, Hb, Ho, Hn. cbn [metrics buffer options network set_lcp set_coreWebVitals]
    in Hm, Hb, Ho, Hn.
  assert (Hfull1 : (bufferSize (options m1) <= Z.of_nat (length (buffer m1) + 1))%Z)
    by (rewrite Ho, Hb; exact Hfull).
  eexists. exists v. eexists. split; [reflexivity|]. split; [reflexivity|].
  rewrite (reportMetric_flush _ _ _ _ Hfull1).
  set (m2 := set_buffer (buffer m1 ++ [sampleOf (c, "lcp", VitalData v)]) m1).
  assert (Hne : buffer m2 <> []) by (cbn; destruct (buffer m1); discriminate).
  destruct (sendReport_nonempty c false m2 Hne) as (Hb2 & _ & _ & _ & _ & Hn2 & _).
  split; [exact Hb2|]. rewrite Hn2.
  unfold requestOf, reportOf. cbn [andb].
  subst m2. cbn [network options buffer set_buffer]. rewrite Hn, Ho, Hb.
  split; [reflexivity|]. split; [reflexivity|].
  cbn [Report.summary getSummary summaryCoreWebVitals metrics set_buffer].
  rewrite Hm. reflexivity.
Qed.

Lemma lcp_that_fills_the_buffer_is_in_the_summary_witness :
  (bufferSize (options (reportAll [(ctxBeacon, "alert", OtherData 1%N);
                                   (ctxBeacon, "alert", OtherData 2%N)]
                                  (newPerformanceMonitor smallOptions)))
   <= Z.of_nat (length (buffer (reportAll [(ctxBeacon, "alert", OtherData 1%N);
                                           (ctxBeacon, "alert", OtherData 2%N)]
                                          (newPerformanceMonitor smallOptions))) + 1))%Z
  /\ exists m',
       measureLCP_callback ctxBeacon ([lcpEntry 1200 2%N] ++ [lcpEntry 1900 3%N])
         (reportAll [(ctxBeacon, "alert", OtherData 1%N);
                     (ctxBeacon, "alert", OtherData 2%N)]
                    (newPerformanceMonitor smallOptions)) = Ok m'
       /\ buffer m' = [].
Proof.
  assert (H : (bufferSize (options (reportAll [(ctxBeacon, "alert", OtherData 1%N);
                                               (ctxBeacon, "alert", OtherData 2%N)]
                                              (newPerformanceMonitor smallOptions)))
               <= Z.of_nat (length (buffer (reportAll [(ctxBeacon, "alert", OtherData 1%N);
                                                       (ctxBeacon, "alert", OtherData 2%N)]
                                                      (newPerformanceMonitor smallOptions)))
                            + 1))%Z)
    by (vm_compute; discriminate).
  split; [exact H|].
  destruct (lcp_that_fills_the_buffer_is_in_the_summary ctxBeacon [lcpEntry 1200 2%N]
              (lcpEntry 1900 3%N) _ H)
    as (m' & v & report & Hrun & _ & Hb & _).
  exists m'. exact (conj Hrun Hb).
Defined.
